(** * CSE detailed-trades downloader: a model of [download_api2_xls_fixed.py]

    The script fetches a JSON payload, extracts a list of rows from it,
    writes the rows to an .xlsx workbook and reformats that workbook in
    place.  This development embeds the script function by function:

    - [_extract_rows]      (lines 17-35), a pure function on JSON values;
    - [_prettify_excel]    (lines 38-95), loops over an openpyxl worksheet,
                           modelled as a sparse store of cells;
    - [main]               (lines 100-123), a computation in a state and
                           exception monad over the file system, the
                           network log and standard output.

    Python [float] is IEEE binary64: it is modelled by Rocq's primitive
    floats, whose division is the same correctly rounded operation. *)

From Stdlib Require Import ZArith List Ascii String Floats Lia Bool.
From stdpp Require Import base option list gmap strings pretty.

Set Warnings "-register-all".
Local Open Scope string_scope.

(* ===================================================================== *)
(** ** Parsed JSON values *)
(* ===================================================================== *)

(** What [r.json()] returns.  A Python [dict] keeps its insertion order,
    which [dict.values()] exposes, so an object is an association list
    (of distinct keys, when it comes from the parser). *)
Inductive json : Type :=
| JNull
| JBool (b : bool)
| JInt (z : Z)
| JFloat (f : float)
| JStr (s : string)
| JList (items : list json)
| JDict (entries : list (string * json)).

Abbreviation dict := (list (string * json)).

(** [payload.get(k)]: the value bound to [k], Python's [None] otherwise. *)
Fixpoint dict_get (d : dict) (k : string) : option json :=
  match d with
  | [] => None
  | (k', v) :: d' => if String.eqb k' k then Some v else dict_get d' k
  end.

(** [payload.values()], in iteration order. *)
Definition dict_values (d : dict) : list json := map snd d.

(** [isinstance(v, list)], returning the list when the test succeeds. *)
Definition as_list (v : json) : option (list json) :=
  match v with
  | JList items => Some items
  | _ => None
  end.

(* ===================================================================== *)
(** ** The row extractor *)
(* ===================================================================== *)

(** Lines 25-28: [for k in preferred_keys: v = payload.get(k); if
    isinstance(v, list): return v].  [None] means the loop fell through. *)
Fixpoint scan_preferred (d : dict) (preferred_keys : list string)
  : option (list json) :=
  match preferred_keys with
  | [] => None
  | k :: ks =>
      match dict_get d k with
      | Some (JList v) => Some v
      | _ => scan_preferred d ks
      end
  end.

(** Lines 31-33: [for v in payload.values(): if isinstance(v, list):
    return v]. *)
Fixpoint scan_values (vs : list json) : option (list json) :=
  match vs with
  | [] => None
  | JList v :: _ => Some v
  | _ :: vs' => scan_values vs'
  end.

(** Lines 17-35. *)
Definition _extract_rows (payload : json) (preferred_keys : list string)
  : list json :=
  match payload with
  | JList items => items
  | JDict d =>
      match scan_preferred d preferred_keys with
      | Some v => v
      | None =>
          match scan_values (dict_values d) with
          | Some v => v
          | None => []
          end
      end
  | _ => []
  end.

(** The precedence of section 4.2 of the specification, written with list
    searches instead of loops: the first candidate key bound to a
    sequence, else the first sequence among the values, else nothing. *)
Definition key_has_rows (d : dict) (k : string) : bool :=
  match dict_get d k with
  | Some (JList _) => true
  | _ => false
  end.

Definition is_list (v : json) : bool :=
  match v with
  | JList _ => true
  | _ => false
  end.

Definition extract_rows_spec (payload : json) (preferred_keys : list string)
  : list json :=
  match payload with
  | JList items => items
  | JDict d =>
      match find (key_has_rows d) preferred_keys with
      | Some k => default [] (dict_get d k ≫= as_list)
      | None => default [] (find is_list (dict_values d) ≫= as_list)
      end
  | _ => []
  end.

(* ===================================================================== *)
(** ** Cell values and worksheets *)
(* ===================================================================== *)

(** The Python values a cell or a flat record field can hold. *)
Inductive pyval : Type :=
| VNone
| VBool (b : bool)
| VInt (z : Z)
| VFloat (f : float)
| VStr (s : string).

Record alignment : Type := Alignment {
  horizontal : string;
  vertical : string;
  wrap_text : bool
}.

Record cell : Type := Cell {
  value : pyval;
  number_format : string;
  font_bold : bool;
  cell_alignment : option alignment
}.

(** A cell nobody wrote to: openpyxl creates it on first access. *)
Definition blank_cell : cell :=
  {| value := VNone; number_format := "General";
     font_bold := false; cell_alignment := None |}.

(** An openpyxl worksheet: a sparse store of cells keyed by (row, column),
    both counted from 1.  openpyxl names a column by letters
    ([get_column_letter], an injective renaming of the index);
    [column_dimensions] is keyed here by the index itself, and
    [ws.dimensions] is kept as the pair (rows, columns) it spells. *)
Record worksheet : Type := Worksheet {
  _cells : gmap (nat * nat) cell;
  max_row : nat;
  max_column : nat;
  freeze_panes : option string;
  auto_filter_ref : option (nat * nat);
  column_dimensions : gmap nat nat
}.

(** [ws.cell(row=r, column=c)]. *)
Definition ws_cell (ws : worksheet) (r c : nat) : cell :=
  default blank_cell (_cells ws !! (r, c)).

(** In-place mutation of the cell object at (r, c). *)
Definition set_cell (ws : worksheet) (r c : nat) (x : cell) : worksheet :=
  {| _cells := <[(r, c) := x]> (_cells ws);
     max_row := max_row ws; max_column := max_column ws;
     freeze_panes := freeze_panes ws;
     auto_filter_ref := auto_filter_ref ws;
     column_dimensions := column_dimensions ws |}.

Definition set_width (ws : worksheet) (c width : nat) : worksheet :=
  {| _cells := _cells ws;
     max_row := max_row ws; max_column := max_column ws;
     freeze_panes := freeze_panes ws;
     auto_filter_ref := auto_filter_ref ws;
     column_dimensions := <[c := width]> (column_dimensions ws) |}.

Definition set_freeze_and_filter (ws : worksheet) : worksheet :=
  {| _cells := _cells ws;
     max_row := max_row ws; max_column := max_column ws;
     freeze_panes := Some "A2";
     auto_filter_ref := Some (max_row ws, max_column ws);
     column_dimensions := column_dimensions ws |}.

(** [ws[1]] and one element of [ws.columns]. *)
Definition row_cells (ws : worksheet) (r : nat) : list cell :=
  map (fun c => ws_cell ws r c) (seq 1 (max_column ws)).

Definition column_cells (ws : worksheet) (c : nat) : list cell :=
  map (fun r => ws_cell ws r c) (seq 1 (max_row ws)).

(** [float(n)] for a Python int: the nearest binary64 value, ties to even;
    an int beyond the float range raises OverflowError ([None]). *)
Definition float_of_int (z : Z) : option float :=
  let f := SF2Prim (binary_normalize prec emax z 0 false) in
  if PrimFloat.is_infinity f then None else Some f.

Definition ascii_lower (a : ascii) : ascii :=
  let n := nat_of_ascii a in
  if (65 <=? n)%nat && (n <=? 90)%nat then ascii_of_nat (n + 32) else a.

(** [s.lower()], on the ASCII letters.  Python also lowers letters beyond
    ASCII, but none of them to a letter of the names this script compares
    with. *)
Fixpoint lower (s : string) : string :=
  match s with
  | EmptyString => EmptyString
  | String a s' => String (ascii_lower a) (lower s')
  end.

(* ===================================================================== *)
(** ** The formatting pass on a worksheet *)
(* ===================================================================== *)

(** The cap of [col_cells[:2000]]. *)
Definition SCAN_CAP : nat := 2000.

Section Formatter.

(** Two conversions of the Python runtime are kept abstract: parsing a
    text as a float literal ([float(s)], [None] for ValueError) and
    printing a float ([str(x)], the shortest round-trip decimal). *)
Variable float_of_str : string -> option float.
Variable repr_float : float -> string.

(** [str(val)]. *)
Definition py_str (v : pyval) : string :=
  match v with
  | VNone => "None"
  | VBool true => "True"
  | VBool false => "False"
  | VInt z => pretty z
  | VFloat f => repr_float f
  | VStr s => s
  end.

(** [float(val)]; [None] when Python raises. *)
Definition py_float (v : pyval) : option float :=
  match v with
  | VNone => None
  | VBool true => Some 1%float
  | VBool false => Some 0%float
  | VInt z => float_of_int z
  | VFloat f => Some f
  | VStr s => float_of_str s
  end.

(** Lines 48-51: the body of [for cell in ws[1]]. *)
Definition style_header_cell (c : cell) : cell :=
  {| value := value c; number_format := number_format c;
     font_bold := true;
     cell_alignment :=
       Some {| horizontal := "center"; vertical := "center";
               wrap_text := true |} |}.

Definition style_header (ws : worksheet) : worksheet :=
  fold_left
    (fun ws c => set_cell ws 1 c (style_header_cell (ws_cell ws 1 c)))
    (seq 1 (max_column ws)) ws.

(** Lines 60-65: one iteration of [for c in col_cells[:2000]]. *)
Definition scan_cell (max_len : nat) (c : cell) : nat :=
  match value c with
  | VNone => max_len
  | val =>
      let s := py_str val in
      if (max_len <? String.length s)%nat then String.length s
      else max_len
  end.

(** Lines 58-66. *)
Definition column_width (col_cells : list cell) : nat :=
  let max_len := fold_left scan_cell (take SCAN_CAP col_cells) 0%nat in
  Nat.min (Nat.max 10 (max_len + 2)) 45.

(** Lines 57-67: [for col_idx, col_cells in enumerate(ws.columns, 1)]. *)
Definition set_column_widths (ws : worksheet) : worksheet :=
  fold_left
    (fun ws col_idx =>
       set_width ws col_idx (column_width (column_cells ws col_idx)))
    (seq 1 (max_column ws)) ws.

Definition with_number_format (fmt : string) (c : cell) : cell :=
  {| value := value c; number_format := fmt;
     font_bold := font_bold c; cell_alignment := cell_alignment c |}.

(** Lines 78-93: what one pass of the inner loop does to its cell.
    [is_percent] is the test [name_str in percent_cols].  Python's
    [bool] is a subclass of [int], so a boolean takes the integer
    format. *)
Definition format_cell (is_percent : bool) (c : cell) : cell :=
  match value c with
  | VNone => c
  | val =>
      if is_percent then
        match py_float val with
        | Some x =>
            {| value := VFloat (x / 100); number_format := "0.00%";
               font_bold := font_bold c;
               cell_alignment := cell_alignment c |}
        | None => c
        end
      else
        match val with
        | VBool _ | VInt _ => with_number_format "#,##0" c
        | VFloat _ => with_number_format "#,##0.00" c
        | _ => c
        end
  end.

(** Lines 72-93: the body of the outer loop for one header entry. *)
Definition format_column (percent_cols : list string) (ws : worksheet)
    (col_idx : nat) (name : pyval) : worksheet :=
  match name with
  | VNone => ws
  | _ =>
      let name_str := py_str name in
      fold_left
        (fun ws row =>
           set_cell ws row col_idx
             (format_cell (bool_decide (name_str ∈ percent_cols))
                          (ws_cell ws row col_idx)))
        (seq 2 (max_row ws - 1)) ws
  end.

(** Lines 70-93. *)
Definition format_numbers (percent_cols : list string) (ws : worksheet)
  : worksheet :=
  let header := map value (row_cells ws 1) in
  fold_left
    (fun ws '(col_idx, name) => format_column percent_cols ws col_idx name)
    (zip (seq 1 (length header)) header) ws.

(** Lines 43-93, between [load_workbook] and [wb.save]. *)
Definition prettify_sheet (percent_cols : option (list string))
    (ws : worksheet) : worksheet :=
  let percent_cols := default [] percent_cols in
  let ws := style_header ws in
  let ws := set_freeze_and_filter ws in
  let ws := set_column_widths ws in
  format_numbers percent_cols ws.

End Formatter.

(* ===================================================================== *)
(** ** Table construction *)
(* ===================================================================== *)

(** A flat record: field names bound to scalars, in the order of the
    JSON object. *)
Abbreviation record := (list (string * pyval)).

Definition scalar_of_json (j : json) : option pyval :=
  match j with
  | JNull => Some VNone
  | JBool b => Some (VBool b)
  | JInt z => Some (VInt z)
  | JFloat f => Some (VFloat f)
  | JStr s => Some (VStr s)
  | JList _ | JDict _ => None
  end.

Definition record_of_json (j : json) : option record :=
  match j with
  | JDict d => mapM (fun kv => pair (fst kv) <$> scalar_of_json (snd kv)) d
  | _ => None
  end.

Fixpoint record_get (r : record) (k : string) : option pyval :=
  match r with
  | [] => None
  | (k', v) :: r' => if String.eqb k' k then Some v else record_get r' k
  end.

Definition record_keys (r : record) : list string := map fst r.

(** Modelled from the spec: the table builder of section 4.3, which the
    script delegates to pandas ([pd.DataFrame(rows)], not part of the
    sources).  A record with keys beyond the ones seen so far extends the
    header. *)
Definition extend_header (header keys : list string) : list string :=
  fold_left (fun h k => if bool_decide (k ∈ h) then h else (h ++ [k])%list)
            keys header.

(** Modelled from the spec: the header is built once, by running over the
    records in order (section 4.3; pandas is not part of the sources). *)
Definition frame_columns (records : list record) : list string :=
  fold_left (fun h r => extend_header h (record_keys r)) records [].

(** Modelled from the spec: each record becomes one row, and a record
    missing a column renders an empty cell there (section 4.3). *)
Definition frame_row (columns : list string) (r : record) : list pyval :=
  map (fun k => default VNone (record_get r k)) columns.

(** A table: the column labels, as the text [str(c)] of each, and one
    list of cell values per row. *)
Record DataFrame : Type := Frame {
  columns : list string;
  values : list (list pyval)
}.

(** Modelled from the spec: [pd.DataFrame(rows)] on flat records, as
    section 4.3 describes the table (pandas is not part of the sources). *)
Definition pd_DataFrame (records : list record) : DataFrame :=
  {| columns := frame_columns records;
     values := map (frame_row (frame_columns records)) records |}.

Definition value_cell (v : pyval) : cell :=
  {| value := v; number_format := "General";
     font_bold := false; cell_alignment := None |}.

Fixpoint write_row (r c : nat) (vs : list pyval) (m : gmap (nat * nat) cell)
  : gmap (nat * nat) cell :=
  match vs with
  | [] => m
  | v :: vs' => write_row r (S c) vs' (<[(r, c) := value_cell v]> m)
  end.

Fixpoint write_rows (r : nat) (rows : list (list pyval))
    (m : gmap (nat * nat) cell) : gmap (nat * nat) cell :=
  match rows with
  | [] => m
  | vs :: rows' => write_rows (S r) rows' (write_row r 1 vs m)
  end.

(** Modelled from the spec: the sheet [df.to_excel(path, index=False)]
    writes (section 4.4, construction phase; pandas is not part of the
    sources): the header in the first row, no index column, one row per
    record below it.  It serves as the sheets of the examples; what a
    run finds in the file it wrote is [written_by] below. *)
Definition sheet_of_frame (df : DataFrame) : worksheet :=
  {| _cells :=
       write_rows 2 (values df)
         (write_row 1 1 (map VStr (columns df)) ∅);
     max_row := 1 + length (values df);
     max_column := length (columns df);
     freeze_panes := None;
     auto_filter_ref := None;
     column_dimensions := ∅ |}.

(* ===================================================================== *)
(** ** The world the script runs in *)
(* ===================================================================== *)

Inductive http_method : Type := POST | GET.

Record request : Type := Request {
  method : http_method;
  url : string;
  data : list (string * string);
  timeout : Z
}.

(** [body] is what [r.json()] parses; [None] when it is not JSON. *)
Record response : Type := Response {
  status_code : Z;
  body : option json
}.

Inductive content : Type :=
| Xlsx (ws : worksheet)
| Other.

Inductive node : Type :=
| Dir
| File (c : content).

Record world : Type := World {
  fs : gmap string node;
  sent : list request;
  stdout : list string
}.

Record date : Type := Date { year : nat; month : nat; day : nat }.

(** What a run cannot choose: the server, the clock, and whether openpyxl
    could be imported, by the script's own [try] block at start-up
    ([openpyxl_imported]: the module variable is not [None]) and by
    pandas when it loads the engine it is asked for ([excel_engine_ok]). *)
Record env : Type := Env {
  serve : request -> option response;
  now : date;
  openpyxl_imported : bool;
  excel_engine_ok : bool
}.

Inductive exn : Type :=
| FileExistsError
| FileNotFoundError
| IsADirectoryError
| InvalidFileException
| ConnectionError
| HTTPError (status : Z)
| JSONDecodeError
| RuntimeError (msg : string)
| ImportError
| LibraryError (name : string).

Inductive outcome (A : Type) : Type :=
| Ok (a : A)
| Raise (e : exn).
Arguments Ok {A} a.
Arguments Raise {A} e.

(** Computations of the script: they read the environment, change the
    world, and return or raise.  An exception keeps the effects made
    before it. *)
Definition M (A : Type) : Type := env -> world -> outcome A * world.

Definition ret {A} (a : A) : M A := fun _ w => (Ok a, w).

Definition bind {A B} (m : M A) (k : A -> M B) : M B :=
  fun e w =>
    match m e w with
    | (Ok a, w') => k a e w'
    | (Raise x, w') => (Raise x, w')
    end.

Definition raise {A} (x : exn) : M A := fun _ w => (Raise x, w).

Declare Scope py_scope.
Delimit Scope py_scope with py.
Notation "'let!' x ':=' m 'in' k" := (bind m (fun x => k))
  (at level 10, x name, m at level 100, k at level 200) : py_scope.
Notation "'do!' m 'in' k" := (bind m (fun _ => k))
  (at level 10, m at level 100, k at level 200) : py_scope.

(* ===================================================================== *)
(** ** Library calls *)
(* ===================================================================== *)

Definition set_fs (w : world) (fs' : gmap string node) : world :=
  {| fs := fs'; sent := sent w; stdout := stdout w |}.

(** [os.makedirs(path, exist_ok=True)] for a one-component path. *)
Definition os_makedirs (path : string) : M unit :=
  fun _ w =>
    match fs w !! path with
    | Some Dir => (Ok tt, w)
    | Some (File _) => (Raise FileExistsError, w)
    | None => (Ok tt, set_fs w (<[path := Dir]> (fs w)))
    end.

(** One HTTP exchange: the request is logged, then the server answers or
    the connection fails. *)
Definition send (rq : request) : M response :=
  fun e w =>
    let w' := {| fs := fs w; sent := (sent w ++ [rq])%list;
                 stdout := stdout w |} in
    match serve e rq with
    | Some r => (Ok r, w')
    | None => (Raise ConnectionError, w')
    end.

Definition requests_post (u : string) (d : list (string * string))
    (t : Z) : M response :=
  send {| method := POST; url := u; data := d; timeout := t |}.

Definition requests_get (u : string) (t : Z) : M response :=
  send {| method := GET; url := u; data := []; timeout := t |}.

(** [r.raise_for_status()]: requests raises HTTPError for the client and
    server error classes, 400 to 599, and for nothing else. *)
Definition raise_for_status (r : response) : M unit :=
  if (400 <=? status_code r)%Z && (status_code r <? 600)%Z
  then raise (HTTPError (status_code r))
  else ret tt.

(** [r.json()]. *)
Definition response_json (r : response) : M json :=
  match body r with
  | Some j => ret j
  | None => raise JSONDecodeError
  end.

(** Writing a file in a directory the caller has made sure exists. *)
Definition write_file (path : string) (c : content) : M unit :=
  fun _ w =>
    match fs w !! path with
    | Some Dir => (Raise IsADirectoryError, w)
    | _ => (Ok tt, set_fs w (<[path := File c]> (fs w)))
    end.

(** [openpyxl.load_workbook(path)] followed by [wb.active]. *)
Definition load_workbook (path : string) : M worksheet :=
  fun _ w =>
    match fs w !! path with
    | Some (File (Xlsx ws)) => (Ok ws, w)
    | Some (File Other) => (Raise InvalidFileException, w)
    | Some Dir => (Raise IsADirectoryError, w)
    | None => (Raise FileNotFoundError, w)
    end.

(** [wb.save(path)]. *)
Definition wb_save (ws : worksheet) (path : string) : M unit :=
  write_file path (Xlsx ws).

(** A worksheet without any cell, as openpyxl loads it: it reports one
    row and one column. *)
Definition empty_sheet : worksheet :=
  {| _cells := ∅; max_row := 1; max_column := 1;
     freeze_panes := None; auto_filter_ref := None;
     column_dimensions := ∅ |}.

(** What a call of [df.to_excel] leaves behind: a file that loads as the
    worksheet [ws]; or an exception of pandas or openpyxl, named by its
    class, with [left] at the path if the file was opened before it was
    raised, and the path untouched otherwise. *)
Inductive write_outcome : Type :=
| Written (ws : worksheet)
| WriteFailed (name : string) (left : option content).

(** pandas and the .xlsx file format are libraries, not part of the
    sources.  Where neither the specification nor the script fixes what
    they do, their behaviour is a parameter of the run:
    - [frame_of_other rows]: [pd.DataFrame(rows)] for rows that are not
      all flat records; it raises, or gives the column labels (as text)
      and the row each item of the list becomes;
    - [excel_file df]: what [df.to_excel] writes for a table with at
      least one column, as [load_workbook] reads it back (the file format
      rounds and retypes values on the way). *)
Record pandas : Type := Pandas {
  frame_of_other : list json -> string + (list string * (json -> list pyval));
  excel_file : DataFrame -> write_outcome
}.

(** [pd.DataFrame(rows)]: the table of section 4.3 for flat records, the
    library's answer for other rows. *)
Definition frame_of (lib : pandas) (rows : list json) : string + DataFrame :=
  match mapM record_of_json rows with
  | Some records => inr (pd_DataFrame records)
  | None =>
      match frame_of_other lib rows with
      | inl name => inl name
      | inr (labels, row_of) =>
          inr {| columns := labels; values := map row_of rows |}
      end
  end.

Definition build_frame (lib : pandas) (rows : list json) : M DataFrame :=
  match frame_of lib rows with
  | inr df => ret df
  | inl name => raise (LibraryError name)
  end.

(** What [df.to_excel] leaves for the table [df].  The writer goes
    through the table cell by cell, so that a table without columns
    (the one of records without keys) gives a sheet without cells,
    whatever the number of its rows; any other table is written as the
    library says. *)
Definition written_by (lib : pandas) (df : DataFrame) : write_outcome :=
  match columns df with
  | [] => Written empty_sheet
  | _ => excel_file lib df
  end.

(** [df.to_excel(path, index=False, engine="openpyxl")]: pandas loads the
    engine it is asked for before it opens the file, and raises
    ImportError when openpyxl cannot be imported. *)
Definition to_excel (lib : pandas) (df : DataFrame) (path : string)
  : M unit :=
  fun e w =>
    if excel_engine_ok e then
      match written_by lib df with
      | Written ws => write_file path (Xlsx ws) e w
      | WriteFailed name None => (Raise (LibraryError name), w)
      | WriteFailed name (Some c) =>
          match write_file path c e w with
          | (Ok _, w') => (Raise (LibraryError name), w')
          | (Raise x, w') => (Raise x, w')
          end
      end
    else (Raise ImportError, w).

Definition pad2 (n : nat) : string :=
  if (n <? 10)%nat then "0" +:+ pretty n else pretty n.

Definition pad4 (n : nat) : string :=
  if (n <? 10)%nat then "000" +:+ pretty n
  else if (n <? 100)%nat then "00" +:+ pretty n
  else if (n <? 1000)%nat then "0" +:+ pretty n
  else pretty n.

(** [d.strftime("%Y-%m-%d")]. *)
Definition strftime_Ymd (d : date) : string :=
  pad4 (year d) +:+ "-" +:+ pad2 (month d) +:+ "-" +:+ pad2 (day d).

(** [datetime.now()]. *)
Definition datetime_now : M date := fun e w => (Ok (now e), w).

(** [os.path.join(a, b)] on a POSIX system. *)
Definition os_path_join (a b : string) : string := a +:+ "/" +:+ b.

(** [print(...)]: one line on standard output. *)
Definition print (line : string) : M unit :=
  fun _ w =>
    (Ok tt, {| fs := fs w; sent := sent w;
               stdout := (stdout w ++ [line])%list |}).

(* ===================================================================== *)
(** ** The script *)
(* ===================================================================== *)

Definition OUT_DIR : string := "data".
Definition API_URL : string := "https://www.cse.lk/api/detailedTrades".

Definition PREFERRED_KEYS : list string :=
  ["detailedTrades"; "reqDetailedTrades"; "data"].

Definition PERCENT_NAMES : list string :=
  ["changepercentage"; "change_percentage"; "changepercent"; "change_pct"].

Definition NO_ROWS : string :=
  "CSE API returned no rows (could not find a list in JSON).".

(** Line 120. *)
Definition percent_columns (cols : list string) : list string :=
  filter (fun c => lower c ∈ PERCENT_NAMES) cols.

(** Line 117. *)
Definition out_path_of (d : date) : string :=
  os_path_join OUT_DIR ("cse_detailed_trades_" +:+ strftime_Ymd d +:+ ".xlsx").

Local Open Scope py_scope.

(** Lines 103-106. *)
Definition fetch : M response :=
  let! r := requests_post API_URL [] 30 in
  let! r := (if negb (status_code r =? 200)%Z
             then requests_get API_URL 30 else ret r) in
  do! raise_for_status r in
  ret r.

Section Script.

Variable float_of_str : string -> option float.
Variable repr_float : float -> string.
Variable lib : pandas.

(** Lines 38-95. *)
Definition _prettify_excel (path : string)
    (percent_cols : option (list string)) : M unit :=
  fun e w =>
    if negb (openpyxl_imported e) then (Ok tt, w)
    else
      (let! ws := load_workbook path in
       wb_save (prettify_sheet float_of_str repr_float percent_cols ws)
               path) e w.

(** Lines 100-123. *)
Definition main : M unit :=
  do! os_makedirs OUT_DIR in
  let! r := fetch in
  let! payload := response_json r in
  let rows := _extract_rows payload PREFERRED_KEYS in
  match rows with
  | [] => raise (RuntimeError NO_ROWS)
  | _ =>
      let! df := build_frame lib rows in
      let! today := datetime_now in
      let out_path := out_path_of today in
      do! to_excel lib df out_path in
      let percent_cols := percent_columns (columns df) in
      do! _prettify_excel out_path (Some percent_cols) in
      print ("Saved: " +:+ out_path +:+ " rows: "
             +:+ pretty (length (values df)))
  end.

End Script.

(* ===================================================================== *)
(** ** Vocabulary of the statements *)
(* ===================================================================== *)

Definition is_none (v : pyval) : bool :=
  match v with
  | VNone => true
  | _ => false
  end.

(** Two worksheets that differ in their cells only. *)
Definition same_frame (ws ws' : worksheet) : Prop :=
  max_row ws' = max_row ws /\
  max_column ws' = max_column ws /\
  freeze_panes ws' = freeze_panes ws /\
  auto_filter_ref ws' = auto_filter_ref ws /\
  column_dimensions ws' = column_dimensions ws.

(** A loop that mutates the cells at the positions [keys], one after the
    other, each through [g]. *)
Definition update_cells (g : cell -> cell) (keys : list (nat * nat))
    (ws : worksheet) : worksheet :=
  fold_left (fun ws k => set_cell ws k.1 k.2 (g (ws_cell ws k.1 k.2))) keys ws.

(** The text length of a cell, if the cell is not empty. *)
Definition text_length (repr_float : float -> string) (c : cell)
  : option nat :=
  if is_none (value c) then None
  else Some (String.length (py_str repr_float (value c))).

(** The text lengths in column [c] over the rows [first], ..., at most
    [count] of them and none below the last row of the sheet. *)
Definition lengths_in_rows (repr_float : float -> string) (ws : worksheet)
    (c first count : nat) : list nat :=
  omap (fun r => text_length repr_float (ws_cell ws r c))
       (seq first (Nat.min count (max_row ws + 1 - first))).

(** The width formula of line 66. *)
Definition clamp_width (L : nat) : nat := Nat.min (Nat.max 10 (L + 2)) 45.

(** A list of names without its repetitions, each name standing where it
    first appears. *)
Fixpoint first_seen (l : list string) : list string :=
  match l with
  | [] => []
  | x :: l' => x :: filter (fun y => y <> x) (first_seen l')
  end.

(** The two requests of lines 103 and 105. *)
Definition post_request : request :=
  {| method := POST; url := API_URL; data := []; timeout := 30 |}.

Definition get_request : request :=
  {| method := GET; url := API_URL; data := []; timeout := 30 |}.

(** The requests a computation adds to the log of [w]. *)
Definition issued {A : Type} (m : M A) (e : env) (w : world) : list request :=
  drop (length (sent w)) (sent (snd (m e w))).

(** The response [raise_for_status] is called on: the one to the POST
    when its status is 200, the one to the GET otherwise. *)
Definition final_response (e : env) : option response :=
  match serve e post_request with
  | Some r1 =>
      if negb (status_code r1 =? 200)%Z then serve e get_request else Some r1
  | None => None
  end.

(** The sheet a successful run leaves in its output file, [ws] being
    the sheet the write left there and [df_columns] the labels of the
    table. *)
Definition final_sheet (float_of_str : string -> option float)
    (repr_float : float -> string) (e : env) (df_columns : list string)
    (ws : worksheet) : worksheet :=
  if openpyxl_imported e
  then prettify_sheet float_of_str repr_float
         (Some (percent_columns df_columns)) ws
  else ws.

(** The sheet of the workbook at [path], if there is one. *)
Definition sheet_at (w : world) (path : string) : option worksheet :=
  match fs w !! path with
  | Some (File (Xlsx ws)) => Some ws
  | _ => None
  end.

(** Lines 114-123 in one step: what the run does once the extractor has
    returned the rows [rows], from the world [w] on. *)
Definition write_stage (float_of_str : string -> option float)
    (repr_float : float -> string) (lib : pandas) (rows : list json)
    (e : env) (w : world) : outcome unit * world :=
  let path := out_path_of (now e) in
  match frame_of lib rows with
  | inl name => (Raise (LibraryError name), w)
  | inr df =>
      if excel_engine_ok e then
        match written_by lib df with
        | WriteFailed name None => (Raise (LibraryError name), w)
        | WriteFailed name (Some c) =>
            match fs w !! path with
            | Some Dir => (Raise IsADirectoryError, w)
            | _ => (Raise (LibraryError name),
                    set_fs w (<[path := File c]> (fs w)))
            end
        | Written ws =>
            match fs w !! path with
            | Some Dir => (Raise IsADirectoryError, w)
            | _ =>
                (Ok tt,
                 {| fs := <[path :=
                              File (Xlsx (final_sheet float_of_str repr_float
                                            e (columns df) ws))]> (fs w);
                    sent := sent w;
                    stdout := (stdout w
                               ++ ["Saved: " +:+ path +:+ " rows: "
                                   +:+ pretty (length rows)])%list |})
            end
        end
      else (Raise ImportError, w)
  end.

(* ===================================================================== *)
(** ** Example data *)
(* ===================================================================== *)

(** Stand-ins for the two abstract conversions, enough to run the
    examples below: the two texts the examples convert, [1.23] and
    [-7.97], go to their nearest binary64 values, and no float is ever
    printed in them. *)
Definition demo_float_of_str (s : string) : option float :=
  if String.eqb s "1.23" then Some 0x1.3ae147ae147aep+0%float
  else if String.eqb s "-7.97" then Some (-0x1.fe147ae147ae1p+2)%float
  else None.

Definition demo_repr_float (f : float) : string := "0.0".

(** A stand-in for the library: rows that are not flat records become
    one column labelled 0 (none of the examples has such rows), and a
    table is found in its file as section 4.4 describes it. *)
Definition demo_pandas : pandas :=
  {| frame_of_other := fun _ =>
       inr (["0"], fun j => [default VNone (scalar_of_json j)]);
     excel_file := fun df => Written (sheet_of_frame df) |}.

(** One column named [securityName] holding the single text [ABC]. *)
Definition name_sheet : worksheet :=
  sheet_of_frame {| columns := ["securityName"]; values := [[VStr "ABC"]] |}.

(** The record of the scenario of section 8 of the specification. *)
Definition trade_rows : list json :=
  [JDict [("symbol", JStr "ABC"); ("changePercentage", JStr "1.23")]].

Definition trade_payload : json := JDict [("reqDetailedTrades", JList trade_rows)].

Definition trade_columns : list string := ["symbol"; "changePercentage"].

Definition trade_sheet : worksheet :=
  sheet_of_frame
    {| columns := trade_columns; values := [[VStr "ABC"; VStr "1.23"]] |}.

Definition empty_world : world := {| fs := ∅; sent := []; stdout := [] |}.

Definition reply (code : Z) (payload : option json) : response :=
  {| status_code := code; body := payload |}.

(** The scenario of section 8: the POST is answered 500, the GET 200 with
    one trade. *)
Definition fallback_env : env :=
  {| serve := fun rq =>
       match method rq with
       | POST => Some (reply 500 None)
       | GET => Some (reply 200 (Some trade_payload))
       end;
     now := {| year := 2024; month := 3; day := 7 |};
     openpyxl_imported := true;
     excel_engine_ok := true |}.

(** A server that answers every request 201 Created, with one trade. *)
Definition created_env : env :=
  {| serve := fun _ => Some (reply 201 (Some trade_payload));
     now := {| year := 2024; month := 3; day := 7 |};
     openpyxl_imported := true;
     excel_engine_ok := true |}.

(** The same exchange as [fallback_env] on a machine without openpyxl. *)
Definition bare_env : env :=
  {| serve := serve fallback_env;
     now := now fallback_env;
     openpyxl_imported := false;
     excel_engine_ok := false |}.

(** A server whose payload holds no sequence: {"foo": "bar"}. *)
Definition foo_env : env :=
  {| serve := fun _ => Some (reply 200 (Some (JDict [("foo", JStr "bar")])));
     now := {| year := 2024; month := 3; day := 7 |};
     openpyxl_imported := true;
     excel_engine_ok := true |}.

(** A column of 2001 rows: the header [h], 1999 data cells [x], and a
    last data cell of 43 characters in row 2001. *)
Definition tall_sheet : worksheet :=
  sheet_of_frame
    {| columns := ["h"];
       values := (replicate 1999 [VStr "x"]
                  ++ [[VStr "a text that is much wider than the others.."]])%list |}.

(** One record with a text, an integer, a float, a boolean and a percent
    text. *)
Definition mixed_sheet : worksheet :=
  sheet_of_frame
    {| columns := ["symbol"; "qty"; "price"; "active"; "changePercentage"];
       values := [[VStr "ABC"; VInt 1200; VFloat 10.5; VBool true;
                   VStr "1.23"]] |}.

(** A machine with no network: every request fails to connect. *)
Definition offline_env : env :=
  {| serve := fun _ => None;
     now := {| year := 2024; month := 3; day := 7 |};
     openpyxl_imported := true;
     excel_engine_ok := true |}.

(** A world where [data] is a regular file. *)
Definition blocked_world : world :=
  {| fs := {[ "data" := File Other ]}; sent := []; stdout := [] |}.

(** A payload whose preferred key [data] holds no rows, next to a list
    that does. *)
Definition shadowed_env : env :=
  {| serve := fun _ =>
       Some (reply 200
               (Some (JDict [("rows", JList trade_rows);
                             ("data", JList [])])));
     now := {| year := 2024; month := 3; day := 7 |};
     openpyxl_imported := true;
     excel_engine_ok := true |}.

(** A calendar date with a four-digit year. *)
Definition valid_date (d : date) : Prop :=
  (1000 <= Z.of_nat (year d) <= 9999)%Z /\
  (1 <= month d <= 12)%nat /\
  (1 <= day d <= 31)%nat.

(** A server whose payload is one record without any key: [{}]. *)
Definition keyless_env : env :=
  {| serve := fun _ => Some (reply 200 (Some (JList [JDict []])));
     now := {| year := 2024; month := 3; day := 7 |};
     openpyxl_imported := true;
     excel_engine_ok := true |}.

(* ===================================================================== *)
(** ** The row extractor: precedence and totality *)
(* ===================================================================== *)

Lemma scan_preferred_find (d : dict) (keys : list string) :
  scan_preferred d keys =
  find (key_has_rows d) keys ≫= fun k => dict_get d k ≫= as_list.
Proof.
  induction keys as [|k ks IH]; [reflexivity|].
  cbn [scan_preferred find]. unfold key_has_rows at 1.
  destruct (dict_get d k) as [[]|] eqn:E; cbn; rewrite ?E; auto.
Qed.

Lemma scan_values_find (vs : list json) :
  scan_values vs = find is_list vs ≫= as_list.
Proof.
  induction vs as [|v vs IH]; [reflexivity|].
  destruct v; cbn; auto.
Qed.

Lemma find_key_has_rows (d : dict) (keys : list string) (k : string) :
  find (key_has_rows d) keys = Some k ->
  exists v, dict_get d k = Some (JList v).
Proof.
  intros H. apply find_some in H as [_ H]. unfold key_has_rows in H.
  destruct (dict_get d k) as [[]|]; try discriminate. eauto.
Qed.

(** The loops of [_extract_rows] compute the searches of the
    specification. *)
Lemma extract_rows_refines_spec (payload : json) (keys : list string) :
  _extract_rows payload keys = extract_rows_spec payload keys.
Proof.
  destruct payload; try reflexivity.
  unfold _extract_rows, extract_rows_spec.
  rewrite scan_preferred_find, scan_values_find.
  destruct (find (key_has_rows entries) keys) as [k|] eqn:E; cbn.
  - destruct (find_key_has_rows _ _ _ E) as [v Hv]. rewrite Hv. reflexivity.
  - destruct (find is_list (dict_values entries)) as [[]|]; reflexivity.
Qed.

Lemma scan_preferred_first (d : dict) (keys : list string) (i : nat)
    (k : string) (v : list json) :
  keys !! i = Some k ->
  dict_get d k = Some (JList v) ->
  (forall j k', (j < i)%nat -> keys !! j = Some k' ->
                key_has_rows d k' = false) ->
  scan_preferred d keys = Some v.
Proof.
  revert i. induction keys as [|k0 ks IH]; intros i Hk Hv Hbefore.
  - discriminate.
  - destruct i as [|i]; cbn in Hk.
    + injection Hk as ->. cbn. rewrite Hv. reflexivity.
    + assert (H0 : key_has_rows d k0 = false)
        by (apply (Hbefore 0%nat); [lia | reflexivity]).
      cbn. unfold key_has_rows in H0.
      destruct (dict_get d k0) as [[]|]; try discriminate;
        (apply (IH i); [assumption | assumption |
           intros j k' Hj Hl; apply (Hbefore (S j)); [lia | exact Hl]]).
Qed.

Lemma scan_preferred_none (d : dict) (keys : list string) :
  (forall k, k ∈ keys -> key_has_rows d k = false) ->
  scan_preferred d keys = None.
Proof.
  induction keys as [|k ks IH]; intros H; [reflexivity|].
  assert (H0 : key_has_rows d k = false) by (apply H; left).
  cbn. unfold key_has_rows in H0.
  destruct (dict_get d k) as [[]|]; try discriminate;
    apply IH; intros k' Hk'; apply H; right; exact Hk'.
Qed.

Lemma scan_values_first (vs : list json) (i : nat) (v : list json) :
  vs !! i = Some (JList v) ->
  (forall j u, (j < i)%nat -> vs !! j = Some u -> is_list u = false) ->
  scan_values vs = Some v.
Proof.
  revert i. induction vs as [|u0 us IH]; intros i Hv Hbefore.
  - discriminate.
  - destruct i as [|i]; cbn in Hv.
    + injection Hv as ->. reflexivity.
    + assert (H0 : is_list u0 = false)
        by (apply (Hbefore 0%nat); [lia | reflexivity]).
      destruct u0; try discriminate; cbn;
        (apply (IH i); [assumption |
           intros j u Hj Hl; apply (Hbefore (S j)); [lia | exact Hl]]).
Qed.

Lemma scan_values_none (vs : list json) :
  (forall u, u ∈ vs -> is_list u = false) -> scan_values vs = None.
Proof.
  induction vs as [|u us IH]; intros H; [reflexivity|].
  assert (H0 : is_list u = false) by (apply H; left).
  destruct u; try discriminate; cbn;
    apply IH; intros u' Hu'; apply H; right; exact Hu'.
Qed.

(** Dropping a candidate key that is not bound to a sequence changes
    nothing, wherever it stands in the list. *)
Lemma scan_preferred_skip (d : dict) (ks1 ks2 : list string) (k : string) :
  key_has_rows d k = false ->
  scan_preferred d (ks1 ++ k :: ks2)%list = scan_preferred d (ks1 ++ ks2)%list.
Proof.
  intros H. induction ks1 as [|k1 ks1 IH]; cbn.
  - unfold key_has_rows in H.
    destruct (dict_get d k) as [[]|]; try discriminate; reflexivity.
  - destruct (dict_get d k1) as [[]|]; auto.
Qed.

(** The extractor on the envelopes of section 8: a preferred key wins
    over an earlier entry of the mapping, and over a later candidate. *)
Example extract_rows_examples :
  _extract_rows trade_payload PREFERRED_KEYS = trade_rows /\
  _extract_rows (JDict [("other", JList [JInt 1]); ("data", JList [JInt 2]);
                        ("detailedTrades", JList [JInt 3])]) PREFERRED_KEYS
  = [JInt 3] /\
  _extract_rows (JDict [("n", JInt 0); ("first", JList [JInt 1]);
                        ("second", JList [JInt 2])]) PREFERRED_KEYS
  = [JInt 1] /\
  _extract_rows (JDict [("data", JStr "x"); ("rows", JList [JInt 1])])
                PREFERRED_KEYS
  = [JInt 1] /\
  _extract_rows (JDict [("foo", JStr "bar")]) PREFERRED_KEYS = [].
Proof. repeat split; reflexivity. Qed.

(** C1: the extractor returns a sequence payload unchanged; for a mapping,
    the value of the first candidate key, in list order, that is bound
    to a sequence; failing that, the first sequence among the mapping's
    values in iteration order; failing that, the empty sequence; and the
    empty sequence for any other payload. *)
Theorem extract_rows_precedence (payload : json) (preferred_keys : list string) :
  (forall items, payload = JList items ->
     _extract_rows payload preferred_keys = items) /\
  (forall d, payload = JDict d ->
     (forall i k v,
        preferred_keys !! i = Some k ->
        dict_get d k = Some (JList v) ->
        (forall j k', (j < i)%nat -> preferred_keys !! j = Some k' ->
                      key_has_rows d k' = false) ->
        _extract_rows payload preferred_keys = v) /\
     ((forall k, k ∈ preferred_keys -> key_has_rows d k = false) ->
        (forall i v,
           dict_values d !! i = Some (JList v) ->
           (forall j u, (j < i)%nat -> dict_values d !! j = Some u ->
                        is_list u = false) ->
           _extract_rows payload preferred_keys = v) /\
        ((forall u, u ∈ dict_values d -> is_list u = false) ->
           _extract_rows payload preferred_keys = []))) /\
  ((forall items, payload <> JList items) ->
   (forall d, payload <> JDict d) ->
   _extract_rows payload preferred_keys = []).
Proof.
  split; [|split].
  - intros items ->. reflexivity.
  - intros d ->. split.
    + intros i k v Hk Hv Hbefore. unfold _extract_rows.
      rewrite (scan_preferred_first d preferred_keys i k v Hk Hv Hbefore).
      reflexivity.
    + intros Hnone. unfold _extract_rows.
      rewrite (scan_preferred_none d preferred_keys Hnone). split.
      * intros i v Hv Hbefore.
        rewrite (scan_values_first _ i v Hv Hbefore). reflexivity.
      * intros Hno. rewrite (scan_values_none _ Hno). reflexivity.
  - intros Hl Hd. destruct payload; try reflexivity.
    + exfalso. eapply Hl. reflexivity.
    + exfalso. eapply Hd. reflexivity.
Qed.

(** C10: the extractor is total and never raises: every payload and every
    list of candidate keys has a result; a payload that is neither a
    sequence nor a mapping gives the empty list; and a candidate key
    bound to something that is not a sequence (or not bound at all) is
    skipped, the result being the one for the remaining candidates. *)
Theorem extract_rows_total :
  (forall payload keys, exists rows, _extract_rows payload keys = rows) /\
  (forall keys,
     _extract_rows JNull keys = [] /\
     (forall b, _extract_rows (JBool b) keys = []) /\
     (forall z, _extract_rows (JInt z) keys = []) /\
     (forall f, _extract_rows (JFloat f) keys = []) /\
     (forall s, _extract_rows (JStr s) keys = [])) /\
  (forall d ks1 k ks2,
     key_has_rows d k = false ->
     _extract_rows (JDict d) (ks1 ++ k :: ks2)%list
     = _extract_rows (JDict d) (ks1 ++ ks2)%list).
Proof.
  split; [|split].
  - intros payload keys. eexists. reflexivity.
  - intros keys. repeat split; reflexivity.
  - intros d ks1 k ks2 H. unfold _extract_rows.
    rewrite (scan_preferred_skip d ks1 ks2 k H). reflexivity.
Qed.

(* ===================================================================== *)
(** ** The cell store *)
(* ===================================================================== *)

Lemma ws_cell_set_cell (ws : worksheet) (r c : nat) (x : cell) (r' c' : nat) :
  ws_cell (set_cell ws r c x) r' c'
  = if decide ((r, c) = (r', c')) then x else ws_cell ws r' c'.
Proof.
  unfold ws_cell, set_cell; cbn. rewrite lookup_insert.
  destruct (decide _); reflexivity.
Qed.

Lemma same_frame_refl (ws : worksheet) : same_frame ws ws.
Proof. repeat split. Qed.

Lemma same_frame_trans (ws1 ws2 ws3 : worksheet) :
  same_frame ws1 ws2 -> same_frame ws2 ws3 -> same_frame ws1 ws3.
Proof.
  unfold same_frame. intros (?&?&?&?&?) (?&?&?&?&?).
  repeat split; congruence.
Qed.

Lemma same_frame_set_cell (ws : worksheet) (r c : nat) (x : cell) :
  same_frame ws (set_cell ws r c x).
Proof. repeat split. Qed.

Lemma update_cells_frame (g : cell -> cell) (keys : list (nat * nat))
    (ws : worksheet) :
  same_frame ws (update_cells g keys ws).
Proof.
  revert ws. induction keys as [|k keys IH]; intros ws.
  - apply same_frame_refl.
  - cbn. eapply same_frame_trans; [|apply IH]. apply same_frame_set_cell.
Qed.

Lemma update_cells_outside (g : cell -> cell) (keys : list (nat * nat))
    (ws : worksheet) (r c : nat) :
  (r, c) ∉ keys ->
  ws_cell (update_cells g keys ws) r c = ws_cell ws r c.
Proof.
  revert ws. induction keys as [|k keys IH]; intros ws Hnot; [reflexivity|].
  apply not_elem_of_cons in Hnot as [Hne Hnot].
  change (ws_cell (update_cells g keys
            (set_cell ws k.1 k.2 (g (ws_cell ws k.1 k.2)))) r c
          = ws_cell ws r c).
  rewrite IH by assumption.
  rewrite ws_cell_set_cell. destruct (decide _) as [E|]; [|reflexivity].
  destruct k; cbn in E. congruence.
Qed.

Lemma update_cells_inside (g : cell -> cell) (keys : list (nat * nat))
    (ws : worksheet) (r c : nat) :
  NoDup keys -> (r, c) ∈ keys ->
  ws_cell (update_cells g keys ws) r c = g (ws_cell ws r c).
Proof.
  revert ws. induction keys as [|k keys IH]; intros ws Hnd Hin.
  - inversion Hin.
  - apply NoDup_cons in Hnd as [Hk Hnd].
    apply elem_of_cons in Hin as [<-|Hin].
    + change (ws_cell (update_cells g keys
                (set_cell ws r c (g (ws_cell ws r c)))) r c
              = g (ws_cell ws r c)).
      rewrite update_cells_outside by assumption.
      rewrite ws_cell_set_cell. rewrite decide_True by reflexivity.
      reflexivity.
    + change (ws_cell (update_cells g keys
                (set_cell ws k.1 k.2 (g (ws_cell ws k.1 k.2)))) r c
              = g (ws_cell ws r c)).
      rewrite IH by assumption.
      rewrite ws_cell_set_cell. rewrite decide_False; [reflexivity|].
      intros E. apply Hk. destruct k; cbn in E. rewrite E. exact Hin.
Qed.

Lemma fold_left_fmap {A B C : Type} (f : A -> C -> A) (h : B -> C)
    (l : list B) (a : A) :
  fold_left f (h <$> l) a = fold_left (fun a b => f a (h b)) l a.
Proof. revert a. induction l as [|b l IH]; intros a; cbn; auto. Qed.

Lemma zip_fmap_self {A B : Type} (h : A -> B) (l : list A) :
  zip l (h <$> l) = (fun a => (a, h a)) <$> l.
Proof. induction l as [|a l IH]; cbn; [reflexivity|]. f_equal. exact IH. Qed.

(** The loop over the rows of one column, and the loop over the columns
    of one row, are instances of [update_cells]. *)
Lemma column_loop (g : cell -> cell) (c : nat) (rows : list nat)
    (ws : worksheet) :
  fold_left (fun ws r => set_cell ws r c (g (ws_cell ws r c))) rows ws
  = update_cells g ((fun r => (r, c)) <$> rows) ws.
Proof. unfold update_cells. rewrite fold_left_fmap. reflexivity. Qed.

Lemma row_loop (g : cell -> cell) (r : nat) (cols : list nat)
    (ws : worksheet) :
  fold_left (fun ws c => set_cell ws r c (g (ws_cell ws r c))) cols ws
  = update_cells g ((fun c => (r, c)) <$> cols) ws.
Proof. unfold update_cells. rewrite fold_left_fmap. reflexivity. Qed.

Lemma elem_of_column_keys (c : nat) (rows : list nat) (r' c' : nat) :
  (r', c') ∈ ((fun r => (r, c)) <$> rows) <-> c' = c /\ r' ∈ rows.
Proof.
  rewrite list_elem_of_fmap. split.
  - intros (r & E & Hr). injection E as -> ->. auto.
  - intros (-> & Hr). eauto.
Qed.

Lemma elem_of_row_keys (r : nat) (cols : list nat) (r' c' : nat) :
  (r', c') ∈ ((fun c => (r, c)) <$> cols) <-> r' = r /\ c' ∈ cols.
Proof.
  rewrite list_elem_of_fmap. split.
  - intros (c & E & Hc). injection E as -> ->. auto.
  - intros (-> & Hc). eauto.
Qed.

Lemma NoDup_column_keys (c : nat) (rows : list nat) :
  NoDup rows -> NoDup ((fun r => (r, c)) <$> rows).
Proof. apply NoDup_fmap_2. intros r1 r2 E. congruence. Qed.

Lemma NoDup_row_keys (r : nat) (cols : list nat) :
  NoDup cols -> NoDup ((fun c => (r, c)) <$> cols).
Proof. apply NoDup_fmap_2. intros c1 c2 E. congruence. Qed.

(* ===================================================================== *)
(** ** The formatting pass, loop by loop *)
(* ===================================================================== *)

Section FormatterFacts.

Variable float_of_str : string -> option float.
Variable repr_float : float -> string.

Abbreviation prettify_sheet := (prettify_sheet float_of_str repr_float).
Abbreviation format_numbers := (format_numbers float_of_str repr_float).
Abbreviation format_column := (format_column float_of_str repr_float).
Abbreviation format_cell := (format_cell float_of_str).
Abbreviation py_str := (py_str repr_float).
Abbreviation py_float := (py_float float_of_str).
Abbreviation column_width := (column_width repr_float).
Abbreviation set_column_widths := (set_column_widths repr_float).
Abbreviation scan_cell := (scan_cell repr_float).
Abbreviation text_length := (text_length repr_float).
Abbreviation lengths_in_rows := (lengths_in_rows repr_float).

(** *** Header styling *)

Lemma style_header_loop (ws : worksheet) :
  style_header ws
  = update_cells style_header_cell
      ((fun c => (1, c)) <$> seq 1 (max_column ws)) ws.
Proof. unfold style_header. apply row_loop. Qed.

Lemma style_header_frame (ws : worksheet) : same_frame ws (style_header ws).
Proof. rewrite style_header_loop. apply update_cells_frame. Qed.

Lemma style_header_value (ws : worksheet) (r c : nat) :
  value (ws_cell (style_header ws) r c) = value (ws_cell ws r c).
Proof.
  rewrite style_header_loop.
  destruct (decide ((r, c) ∈ ((fun c => (1, c)) <$> seq 1 (max_column ws))))
    as [Hin|Hout].
  - rewrite update_cells_inside; [reflexivity | | exact Hin].
    apply NoDup_row_keys, NoDup_seq.
  - rewrite update_cells_outside by exact Hout. reflexivity.
Qed.

Lemma style_header_data_row (ws : worksheet) (r c : nat) :
  r <> 1 -> ws_cell (style_header ws) r c = ws_cell ws r c.
Proof.
  intros Hr. rewrite style_header_loop. apply update_cells_outside.
  rewrite elem_of_row_keys. intros [? _]. contradiction.
Qed.

(** *** Column widths *)

Lemma scan_cell_max (a : nat) (c : cell) :
  scan_cell a c = match text_length c with
                  | Some n => Nat.max a n
                  | None => a
                  end.
Proof.
  unfold scan_cell, text_length.
  destruct (value c) as [|b|z|f|s]; cbn [is_none]; try reflexivity;
    match goal with
    | |- context [(a <? ?n)%nat] => destruct (Nat.ltb_spec a n); lia
    end.
Qed.

Lemma omap_cons {A B : Type} (f : A -> option B) (x : A) (l : list A) :
  omap f (x :: l)
  = match f x with Some y => y :: omap f l | None => omap f l end.
Proof. reflexivity. Qed.

Lemma fold_scan_cell (F : nat -> cell) (rows : list nat) (a : nat) :
  fold_left scan_cell (map F rows) a
  = Nat.max a (max_list (omap (fun r => text_length (F r)) rows)).
Proof.
  revert a. induction rows as [|r rows IH]; intros a.
  - simpl. lia.
  - cbn [map fold_left]. rewrite IH, scan_cell_max, omap_cons.
    destruct (text_length (F r)); simpl max_list; lia.
Qed.

(** The width of a column is the clamp of the longest text among the
    first [SCAN_CAP] rows of the sheet, the header row being the first. *)
Lemma column_width_lengths (ws : worksheet) (c : nat) :
  column_width (column_cells ws c)
  = clamp_width (max_list (lengths_in_rows ws c 1 SCAN_CAP)).
Proof.
  unfold column_width, column_cells, clamp_width,
    lengths_in_rows.
  rewrite firstn_map, take_seq, fold_scan_cell.
  replace (max_row ws + 1 - 1)%nat with (max_row ws) by lia.
  reflexivity.
Qed.

(** The scanned rows are the header row and, after it, at most
    [SCAN_CAP - 1] data rows. *)
Lemma lengths_in_rows_header (ws : worksheet) (c : nat) :
  (1 <= max_row ws)%nat ->
  lengths_in_rows ws c 1 SCAN_CAP
  = (match text_length (ws_cell ws 1 c) with
     | Some n => [n]
     | None => []
     end ++ lengths_in_rows ws c 2 (SCAN_CAP - 1))%list.
Proof.
  intros H. unfold lengths_in_rows.
  replace (Nat.min SCAN_CAP (max_row ws + 1 - 1))
    with (S (Nat.min (SCAN_CAP - 1) (max_row ws + 1 - 2)))
    by (unfold SCAN_CAP; lia).
  cbn [seq]. rewrite omap_cons.
  destruct (text_length (ws_cell ws 1 c)); reflexivity.
Qed.

Lemma lengths_in_rows_ext (ws ws' : worksheet) (c first count : nat) :
  max_row ws' = max_row ws ->
  (forall r, value (ws_cell ws' r c) = value (ws_cell ws r c)) ->
  lengths_in_rows ws' c first count = lengths_in_rows ws c first count.
Proof.
  intros Hmr Hval. unfold lengths_in_rows. rewrite Hmr.
  apply list_omap_ext, Forall2_same_length_lookup_2; [reflexivity|].
  intros i r r' H1 H2. assert (r = r') as <- by congruence.
  unfold text_length. rewrite Hval. reflexivity.
Qed.

Lemma widths_loop (cs : list nat) (ws : worksheet) :
  let res :=
    fold_left
      (fun ws col_idx =>
         set_width ws col_idx (column_width (column_cells ws col_idx)))
      cs ws in
  _cells res = _cells ws /\ max_row res = max_row ws /\
  max_column res = max_column ws /\
  forall c, column_dimensions res !! c
            = if decide (c ∈ cs)
              then Some (column_width (column_cells ws c))
              else column_dimensions ws !! c.
Proof.
  revert ws. induction cs as [|c0 cs IH]; intros ws; cbn zeta.
  - split; [|split; [|split]]; try reflexivity.
  - cbn [fold_left].
    destruct (IH (set_width ws c0 (column_width (column_cells ws c0))))
      as (Hc & Hr & Hm & Hd).
    split; [exact Hc | split; [exact Hr | split; [exact Hm |]]].
    intros c. rewrite Hd. cbn [column_dimensions set_width].
    change (column_cells (set_width ws c0 _) c) with (column_cells ws c).
    destruct (decide (c ∈ cs)) as [Hin|Hout].
    + rewrite decide_True by (right; exact Hin). reflexivity.
    + rewrite lookup_insert. destruct (decide (c0 = c)) as [->|Hne].
      * rewrite decide_True by left. reflexivity.
      * rewrite decide_False; [reflexivity|].
        intros H. apply elem_of_cons in H as [->|H]; contradiction.
Qed.

Lemma set_column_widths_cells (ws : worksheet) (r c : nat) :
  ws_cell (set_column_widths ws) r c = ws_cell ws r c.
Proof.
  unfold set_column_widths, ws_cell.
  destruct (widths_loop (seq 1 (max_column ws)) ws) as (-> & _).
  reflexivity.
Qed.

Lemma set_column_widths_max_row (ws : worksheet) :
  max_row (set_column_widths ws) = max_row ws.
Proof.
  unfold set_column_widths.
  destruct (widths_loop (seq 1 (max_column ws)) ws) as (_ & -> & _).
  reflexivity.
Qed.

Lemma set_column_widths_max_column (ws : worksheet) :
  max_column (set_column_widths ws) = max_column ws.
Proof.
  unfold set_column_widths.
  destruct (widths_loop (seq 1 (max_column ws)) ws) as (_ & _ & -> & _).
  reflexivity.
Qed.

Lemma set_column_widths_lookup (ws : worksheet) (c : nat) :
  (1 <= c <= max_column ws)%nat ->
  column_dimensions (set_column_widths ws) !! c
  = Some (column_width (column_cells ws c)).
Proof.
  intros Hc. unfold set_column_widths.
  destruct (widths_loop (seq 1 (max_column ws)) ws) as (_ & _ & _ & ->).
  rewrite decide_True; [reflexivity|]. apply elem_of_seq. lia.
Qed.

(** *** Number formats *)

Lemma format_column_loop (pc : list string) (ws : worksheet) (c : nat)
    (name : pyval) :
  format_column pc ws c name
  = if is_none name then ws
    else update_cells (format_cell (bool_decide (py_str name ∈ pc)))
           ((fun r => (r, c)) <$> seq 2 (max_row ws - 1)) ws.
Proof. destruct name; cbn [is_none]; try reflexivity; apply column_loop. Qed.

Lemma format_column_frame (pc : list string) (ws : worksheet) (c : nat)
    (name : pyval) :
  same_frame ws (format_column pc ws c name).
Proof.
  rewrite format_column_loop. destruct (is_none name).
  - apply same_frame_refl.
  - apply update_cells_frame.
Qed.

Lemma format_column_cell (pc : list string) (ws : worksheet) (c0 : nat)
    (name : pyval) (r c : nat) :
  ws_cell (format_column pc ws c0 name) r c
  = if bool_decide (c = c0) && (2 <=? r)%nat && (r <=? max_row ws)%nat
       && negb (is_none name)
    then format_cell (bool_decide (py_str name ∈ pc)) (ws_cell ws r c)
    else ws_cell ws r c.
Proof.
  rewrite format_column_loop. destruct (is_none name); cbn [negb].
  - rewrite andb_false_r. reflexivity.
  - rewrite andb_true_r.
    destruct (decide ((r, c) ∈ ((fun r => (r, c0)) <$> seq 2 (max_row ws - 1))))
      as [Hin|Hout].
    + rewrite update_cells_inside;
        [| apply NoDup_column_keys, NoDup_seq | exact Hin].
      apply elem_of_column_keys in Hin as [-> Hr].
      apply elem_of_seq in Hr.
      rewrite (bool_decide_eq_true_2 (c0 = c0)) by reflexivity.
      rewrite (proj2 (Nat.leb_le 2 r)) by lia.
      rewrite (proj2 (Nat.leb_le r (max_row ws))) by lia.
      reflexivity.
    + rewrite update_cells_outside by exact Hout.
      destruct (_ && _ && _) eqn:E; [|reflexivity].
      exfalso. apply Hout.
      apply andb_prop in E as [E E3]. apply andb_prop in E as [E1 E2].
      apply bool_decide_eq_true_1 in E1. apply Nat.leb_le in E2, E3.
      apply elem_of_column_keys. split; [exact E1|].
      apply elem_of_seq. lia.
Qed.

Lemma format_columns_loop (pc : list string) (hdr : nat -> pyval)
    (cs : list nat) (ws : worksheet) :
  NoDup cs ->
  let res :=
    fold_left (fun ws' c => format_column pc ws' c (hdr c)) cs ws in
  same_frame ws res /\
  forall r c,
    ws_cell res r c
    = if bool_decide (c ∈ cs) && (2 <=? r)%nat && (r <=? max_row ws)%nat
         && negb (is_none (hdr c))
      then format_cell (bool_decide (py_str (hdr c) ∈ pc)) (ws_cell ws r c)
      else ws_cell ws r c.
Proof.
  revert ws. induction cs as [|c0 cs IH]; intros ws Hnd; cbn zeta.
  - split; [apply same_frame_refl|]. intros r c.
    rewrite bool_decide_eq_false_2 by apply not_elem_of_nil. reflexivity.
  - apply NoDup_cons in Hnd as [Hc0 Hnd]. cbn [fold_left].
    pose proof (format_column_frame pc ws c0 (hdr c0)) as Hf1.
    destruct (IH (format_column pc ws c0 (hdr c0)) Hnd) as [Hf2 Hcell].
    split; [eapply same_frame_trans; eassumption|].
    intros r c. rewrite Hcell. destruct Hf1 as (-> & _).
    rewrite !format_column_cell.
    destruct (decide (c = c0)) as [->|Hne].
    + rewrite (bool_decide_eq_false_2 (c0 ∈ cs)) by exact Hc0.
      rewrite (bool_decide_eq_true_2 (c0 ∈ c0 :: cs)) by left.
      rewrite (bool_decide_eq_true_2 (c0 = c0)) by reflexivity.
      reflexivity.
    + rewrite (bool_decide_eq_false_2 (c = c0)) by exact Hne.
      cbn [andb].
      rewrite (bool_decide_ext (c ∈ c0 :: cs) (c ∈ cs)); [reflexivity|].
      rewrite elem_of_cons. tauto.
Qed.

Lemma format_numbers_loop (pc : list string) (ws : worksheet) :
  format_numbers pc ws
  = fold_left
      (fun ws' c => format_column pc ws' c (value (ws_cell ws 1 c)))
      (seq 1 (max_column ws)) ws.
Proof.
  unfold format_numbers, row_cells.
  rewrite !length_map, length_seq, map_map.
  change (map (fun x => value (ws_cell ws 1 x)) (seq 1 (max_column ws)))
    with ((fun x => value (ws_cell ws 1 x)) <$> seq 1 (max_column ws)).
  rewrite zip_fmap_self, fold_left_fmap. reflexivity.
Qed.

Lemma format_numbers_frame (pc : list string) (ws : worksheet) :
  same_frame ws (format_numbers pc ws).
Proof.
  rewrite format_numbers_loop.
  apply (format_columns_loop pc (fun c => value (ws_cell ws 1 c))).
  apply NoDup_seq.
Qed.

Lemma format_numbers_cell (pc : list string) (ws : worksheet) (r c : nat) :
  ws_cell (format_numbers pc ws) r c
  = if (1 <=? c)%nat && (c <=? max_column ws)%nat
       && (2 <=? r)%nat && (r <=? max_row ws)%nat
       && negb (is_none (value (ws_cell ws 1 c)))
    then format_cell
           (bool_decide (py_str (value (ws_cell ws 1 c)) ∈ pc))
           (ws_cell ws r c)
    else ws_cell ws r c.
Proof.
  rewrite format_numbers_loop.
  destruct (format_columns_loop pc (fun c => value (ws_cell ws 1 c))
              (seq 1 (max_column ws)) ws (NoDup_seq _ _)) as [_ ->].
  rewrite (bool_decide_ext (c ∈ seq 1 (max_column ws))
             (1 <= c <= max_column ws)%nat)
    by (rewrite elem_of_seq; lia).
  destruct (Nat.leb_spec 1 c), (Nat.leb_spec c (max_column ws)); cbn [andb];
    try (exfalso; lia);
    first [ rewrite (bool_decide_eq_true_2 (1 <= c <= max_column ws)%nat)
              by lia
          | rewrite (bool_decide_eq_false_2 (1 <= c <= max_column ws)%nat)
              by lia ]; reflexivity.
Qed.

(** *** The whole pass *)

Lemma prettify_max_row (pc : option (list string)) (ws : worksheet) :
  max_row (prettify_sheet pc ws) = max_row ws.
Proof.
  unfold prettify_sheet.
  destruct (format_numbers_frame (default [] pc)
              (set_column_widths (set_freeze_and_filter (style_header ws))))
    as (-> & _).
  rewrite set_column_widths_max_row. cbn [max_row set_freeze_and_filter].
  apply style_header_frame.
Qed.

Lemma prettify_max_column (pc : option (list string)) (ws : worksheet) :
  max_column (prettify_sheet pc ws) = max_column ws.
Proof.
  unfold prettify_sheet.
  destruct (format_numbers_frame (default [] pc)
              (set_column_widths (set_freeze_and_filter (style_header ws))))
    as (_ & -> & _).
  rewrite set_column_widths_max_column.
  cbn [max_column set_freeze_and_filter].
  apply style_header_frame.
Qed.

(** What the pass does to the cell at row [r], column [c]: the header
    row keeps its values; a populated column of data cells goes through
    [format_cell]. *)
Lemma prettify_cell (pc : option (list string)) (ws : worksheet) (r c : nat) :
  ws_cell (prettify_sheet pc ws) r c
  = if (1 <=? c)%nat && (c <=? max_column ws)%nat
       && (2 <=? r)%nat && (r <=? max_row ws)%nat
       && negb (is_none (value (ws_cell ws 1 c)))
    then format_cell
           (bool_decide (py_str (value (ws_cell ws 1 c)) ∈ default [] pc))
           (ws_cell ws r c)
    else ws_cell (style_header ws) r c.
Proof.
  unfold prettify_sheet. rewrite format_numbers_cell.
  rewrite set_column_widths_max_row, set_column_widths_max_column.
  rewrite !set_column_widths_cells.
  cbn [max_row max_column set_freeze_and_filter].
  change (ws_cell (set_freeze_and_filter (style_header ws)))
    with (ws_cell (style_header ws)).
  destruct (style_header_frame ws) as (-> & -> & _).
  rewrite style_header_value.
  destruct (_ && _) eqn:E; [|reflexivity].
  rewrite style_header_data_row; [reflexivity|].
  apply andb_prop in E as [E _]. apply andb_prop in E as [E _].
  apply andb_prop in E as [_ E]. apply Nat.leb_le in E. lia.
Qed.

Lemma prettify_widths (pc : option (list string)) (ws : worksheet) (c : nat) :
  (1 <= c <= max_column ws)%nat ->
  column_dimensions (prettify_sheet pc ws) !! c
  = Some (clamp_width (max_list (lengths_in_rows ws c 1 SCAN_CAP))).
Proof.
  intros Hc. unfold prettify_sheet.
  destruct (format_numbers_frame (default [] pc)
              (set_column_widths (set_freeze_and_filter (style_header ws))))
    as (_ & _ & _ & _ & ->).
  destruct (style_header_frame ws) as (Hmr & Hmc & _).
  rewrite set_column_widths_lookup
    by (cbn [max_column set_freeze_and_filter]; lia).
  rewrite column_width_lengths.
  rewrite (lengths_in_rows_ext ws (set_freeze_and_filter (style_header ws)));
    [reflexivity | exact Hmr |].
  intros r. apply style_header_value.
Qed.

Lemma format_cell_plain_value (c : cell) :
  value (format_cell false c) = value c.
Proof. unfold format_cell. destruct (value c) eqn:E; cbn; auto. Qed.

End FormatterFacts.

(* ===================================================================== *)
(** ** Column widths (C7) *)
(* ===================================================================== *)

(** C7, as stated, fails: the scan of line 59 runs over the cells of the
    whole column, and the first of them is the header cell.  A column
    named [securityName] whose only data cell is the 3-character text
    [ABC] has longest data text 3, for which the claim gives width 10;
    the pass sets width 14, the 12 characters of the header plus 2. *)
Lemma width_counts_header_counterexample :
  lengths_in_rows demo_repr_float name_sheet 1 2 SCAN_CAP = [3%nat] /\
  clamp_width 3 = 10%nat /\
  column_dimensions
    (prettify_sheet demo_float_of_str demo_repr_float None name_sheet) !! 1%nat
  = Some 14%nat.
Proof. vm_compute. repeat split; reflexivity. Qed.

(** The cap counts rows of the sheet: the wide text in row 2001, the
    2000th data row, is not measured. *)
Lemma width_ignores_row_2001 :
  max_row tall_sheet = 2001%nat /\
  text_length demo_repr_float (ws_cell tall_sheet 2001 1) = Some 43%nat /\
  column_dimensions
    (prettify_sheet demo_float_of_str demo_repr_float None tall_sheet) !! 1%nat
  = Some 10%nat.
Proof. vm_compute. repeat split; reflexivity. Qed.

(** C7, amended: for every column of the sheet, the pass sets the width
    to min(max(10, L + 2), 45), where L is the maximum text length over
    the non-empty cells of the first 2000 rows of the column, the header
    row being the first of them (so the header cell and at most the first
    1999 data rows); L = 3 gives width 10 and L = 80 gives width 45. *)
Theorem column_width_scans_header (float_of_str : string -> option float)
    (repr_float : float -> string) (percent_cols : option (list string))
    (ws : worksheet) (c : nat) :
  (1 <= c <= max_column ws)%nat ->
  let L := max_list (lengths_in_rows repr_float ws c 1 SCAN_CAP) in
  column_dimensions
    (prettify_sheet float_of_str repr_float percent_cols ws) !! c
  = Some (Nat.min (Nat.max 10 (L + 2)) 45) /\
  ((1 <= max_row ws)%nat ->
   lengths_in_rows repr_float ws c 1 SCAN_CAP
   = (match text_length repr_float (ws_cell ws 1 c) with
      | Some n => [n]
      | None => []
      end ++ lengths_in_rows repr_float ws c 2 1999)%list) /\
  (L = 3%nat ->
   column_dimensions
     (prettify_sheet float_of_str repr_float percent_cols ws) !! c
   = Some 10%nat) /\
  (L = 80%nat ->
   column_dimensions
     (prettify_sheet float_of_str repr_float percent_cols ws) !! c
   = Some 45%nat).
Proof.
  intros Hc L.
  pose proof (prettify_widths float_of_str repr_float percent_cols ws c Hc)
    as H.
  fold L in H. unfold clamp_width in H.
  split; [exact H|].
  split; [apply lengths_in_rows_header|].
  split; intros HL; rewrite H, HL; reflexivity.
Qed.

Lemma column_width_scans_header_witness :
  column_dimensions
    (prettify_sheet demo_float_of_str demo_repr_float None name_sheet) !! 1%nat
  = Some (Nat.min (Nat.max 10
            (max_list (lengths_in_rows demo_repr_float name_sheet 1 1 SCAN_CAP)
             + 2)) 45).
Proof.
  apply (column_width_scans_header demo_float_of_str demo_repr_float None
           name_sheet 1).
  vm_compute. lia.
Defined.

(* ===================================================================== *)
(** ** Percent columns (C4) *)
(* ===================================================================== *)

(** The worked example of the specification: -7.97 in a percent column is
    stored as -0.0797 with the percent format, and a text that is not a
    number stays as it is.  The two floats are written in hexadecimal:
    they are the binary64 values nearest to -7.97 and to -0.0797. *)
Lemma format_cell_percent_examples :
  format_cell demo_float_of_str true (value_cell (VFloat (-0x1.fe147ae147ae1p+2)))
  = {| value := VFloat (-0x1.467381d7dbf48p-4); number_format := "0.00%";
       font_bold := false; cell_alignment := None |} /\
  format_cell demo_float_of_str true (value_cell (VStr "N/A"))
  = value_cell (VStr "N/A").
Proof. split; reflexivity. Qed.

(** C4: in a column whose header name, lower-cased, is one of the four
    synonyms, the pass replaces the value v of every populated data cell
    by float(v) / 100 and sets the format "0.00%"; when float(v) raises,
    the cell is left exactly as it was, and the pass goes on. *)
Theorem percent_cells_rescaled (float_of_str : string -> option float)
    (repr_float : float -> string) (df_columns : list string)
    (ws : worksheet) (r c : nat) (name : string) :
  (1 <= c <= max_column ws)%nat ->
  (2 <= r <= max_row ws)%nat ->
  value (ws_cell ws 1 c) = VStr name ->
  name ∈ df_columns ->
  lower name ∈ PERCENT_NAMES ->
  is_none (value (ws_cell ws r c)) = false ->
  let ws' :=
    prettify_sheet float_of_str repr_float
      (Some (percent_columns df_columns)) ws in
  match py_float float_of_str (value (ws_cell ws r c)) with
  | Some x =>
      value (ws_cell ws' r c) = VFloat (x / 100) /\
      number_format (ws_cell ws' r c) = "0.00%"
  | None => ws_cell ws' r c = ws_cell ws r c
  end.
Proof.
  intros Hc Hr Hname Hin Hlow Hv ws'. subst ws'.
  rewrite prettify_cell, Hname. cbn [is_none negb py_str default].
  rewrite (proj2 (Nat.leb_le 1 c)), (proj2 (Nat.leb_le c (max_column ws))),
    (proj2 (Nat.leb_le 2 r)), (proj2 (Nat.leb_le r (max_row ws))) by lia.
  cbn [andb].
  rewrite bool_decide_eq_true_2
    by (apply list_elem_of_filter; split; assumption).
  unfold format_cell.
  destruct (value (ws_cell ws r c)) as [|b|z|f|s] eqn:E; try discriminate;
    cbn [py_float];
    repeat match goal with
           | |- context [match ?o with Some _ => _ | None => _ end] =>
               destruct o eqn:?
           | b : bool |- _ => destruct b
           end;
    cbn; auto.
Qed.

Lemma percent_cells_rescaled_witness :
  value (ws_cell
           (prettify_sheet demo_float_of_str demo_repr_float
              (Some (percent_columns trade_columns)) trade_sheet) 2 2)
  = VFloat (0x1.3ae147ae147aep+0 / 100) /\
  number_format
    (ws_cell
       (prettify_sheet demo_float_of_str demo_repr_float
          (Some (percent_columns trade_columns)) trade_sheet) 2 2)
  = "0.00%".
Proof.
  apply (percent_cells_rescaled demo_float_of_str demo_repr_float
           trade_columns trade_sheet 2 2 "changePercentage").
  - vm_compute. lia.
  - vm_compute. lia.
  - reflexivity.
  - right. left.
  - left.
  - reflexivity.
Defined.

(* ===================================================================== *)
(** ** The table builder (C6) *)
(* ===================================================================== *)

Lemma elem_of_first_seen (l : list string) (k : string) :
  k ∈ first_seen l <-> k ∈ l.
Proof.
  induction l as [|x l IH]; [reflexivity|]. cbn [first_seen].
  rewrite !elem_of_cons, list_elem_of_filter, IH.
  destruct (decide (k = x)); tauto.
Qed.

Lemma NoDup_first_seen (l : list string) : NoDup (first_seen l).
Proof.
  induction l as [|x l IH]; [constructor|]. cbn [first_seen].
  apply NoDup_cons. split.
  - rewrite list_elem_of_filter. intros [H _]. apply H. reflexivity.
  - apply NoDup_filter, IH.
Qed.

Lemma first_seen_filter (P : string -> Prop) `{!forall x, Decision (P x)}
    (l : list string) :
  first_seen (filter P l) = filter P (first_seen l).
Proof.
  induction l as [|x l IH]; [reflexivity|].
  rewrite filter_cons. cbn [first_seen]. rewrite filter_cons.
  destruct (decide (P x)) as [Hx|Hx].
  - cbn [first_seen]. rewrite IH. f_equal.
    rewrite !list_filter_filter. apply list_filter_iff.
    intros y. cbn beta. tauto.
  - rewrite IH, list_filter_filter. apply list_filter_iff.
    intros y. cbn beta. split; [|tauto]. intros Hy. split; [exact Hy|].
    intros ->. contradiction.
Qed.

Lemma first_seen_app (l1 l2 : list string) :
  first_seen (l1 ++ l2)
  = (first_seen l1 ++ filter (fun k => k ∉ l1) (first_seen l2))%list.
Proof.
  induction l1 as [|x l1 IH].
  - cbn. symmetry. rewrite (list_filter_iff _ (fun _ => True)).
    + induction (first_seen l2) as [|y l IHl]; [reflexivity|].
      rewrite filter_cons_True by exact I. f_equal. exact IHl.
    + intros y. split; [auto|]. intros _. apply not_elem_of_nil.
  - cbn [app first_seen]. rewrite IH, filter_app. f_equal. f_equal.
    rewrite list_filter_filter. apply list_filter_iff.
    intros y. rewrite not_elem_of_cons. tauto.
Qed.

(** Extending a header appends the unseen keys, in their order. *)
Lemma extend_header_first_seen (header keys : list string) :
  extend_header header keys
  = (header ++ first_seen (filter (fun k => k ∉ header) keys))%list.
Proof.
  unfold extend_header. revert header.
  induction keys as [|k keys IH]; intros header.
  - cbn. rewrite app_nil_r. reflexivity.
  - cbn [fold_left]. rewrite filter_cons.
    destruct (decide (k ∉ header)) as [Hk|Hk].
    + rewrite bool_decide_eq_false_2 by exact Hk.
      rewrite IH. cbn [first_seen]. rewrite <- app_assoc. cbn [app].
      do 2 f_equal.
      rewrite <- first_seen_filter. f_equal.
      rewrite list_filter_filter. apply list_filter_iff.
      intros y. rewrite not_elem_of_app, not_elem_of_cons.
      split; [intros [? [? _]]; tauto|].
      intros [? ?]. repeat split; [assumption | assumption |].
      apply not_elem_of_nil.
    + apply dec_stable in Hk.
      rewrite bool_decide_eq_true_2 by exact Hk. apply IH.
Qed.

Lemma frame_columns_from (records : list record) (header : list string) :
  fold_left (fun h r => extend_header h (record_keys r)) records header
  = (header
     ++ first_seen
          (filter (fun k => k ∉ header) (concat (map record_keys records))))%list.
Proof.
  revert header. induction records as [|r records IH]; intros header.
  - cbn. rewrite app_nil_r. reflexivity.
  - cbn [fold_left map concat]. rewrite IH, extend_header_first_seen.
    rewrite filter_app, first_seen_app, <- app_assoc. do 2 f_equal.
    set (new := filter (fun k => k ∉ header) (record_keys r)).
    rewrite !first_seen_filter, list_filter_filter.
    apply list_filter_iff. intros y. cbn beta.
    rewrite not_elem_of_app, elem_of_first_seen. tauto.
Qed.

Lemma frame_columns_first_seen (records : list record) :
  frame_columns records = first_seen (concat (map record_keys records)).
Proof.
  unfold frame_columns. rewrite frame_columns_from. cbn [app]. f_equal.
  rewrite (list_filter_iff _ (fun _ => True)).
  - induction (concat (map record_keys records)) as [|y l IHl];
      [reflexivity|].
    rewrite filter_cons_True by exact I. f_equal. exact IHl.
  - intros y. split; [auto|]. intros _. apply not_elem_of_nil.
Qed.

Lemma elem_of_concat_keys (records : list record) (k : string) :
  k ∈ concat (map record_keys records)
  <-> exists r, r ∈ records /\ k ∈ record_keys r.
Proof.
  rewrite list_elem_of_In, in_concat. split.
  - intros (ks & Hks & Hk). apply in_map_iff in Hks as (r & <- & Hr).
    exists r. rewrite !list_elem_of_In. auto.
  - intros (r & Hr & Hk). exists (record_keys r).
    rewrite list_elem_of_In in Hr. rewrite list_elem_of_In in Hk.
    split; [|exact Hk].
    apply in_map. exact Hr.
Qed.

Lemma record_get_missing (r : record) (k : string) :
  k ∉ record_keys r -> record_get r k = None.
Proof.
  induction r as [|[k' v] r IH]; intros H; [reflexivity|].
  cbn in H. apply not_elem_of_cons in H as [Hne H].
  cbn [record_get]. destruct (String.eqb_spec k' k) as [->|_].
  - contradiction.
  - apply IH, H.
Qed.

Lemma frame_row_lookup (cols : list string) (r : record) (j : nat)
    (k : string) :
  cols !! j = Some k ->
  frame_row cols r !! j = Some (default VNone (record_get r k)).
Proof.
  intros H. unfold frame_row.
  change (map ?f cols) with (f <$> cols).
  rewrite list_lookup_fmap, H. reflexivity.
Qed.

Lemma frame_values_lookup (records : list record) (i : nat) (r : record) :
  records !! i = Some r ->
  values (pd_DataFrame records) !! i
  = Some (frame_row (frame_columns records) r).
Proof.
  intros H. cbn [values pd_DataFrame].
  change (map ?f records) with (f <$> records).
  rewrite list_lookup_fmap, H. reflexivity.
Qed.

(** C6: the header of the table is the list of all keys of all records,
    without repetitions, each key standing where it first appears; a
    record that brings new keys extends the header by them; there is one
    row per record, holding the record's value in each column and an
    empty cell where the record has no such key.  For the records
    {a:1, b:2} and {b:3, c:4} the header is [a, b, c] and the a-cell of
    the second row is empty. *)
Theorem frame_header_first_appearance (records : list record) :
  let df := pd_DataFrame records in
  columns df = first_seen (concat (map record_keys records)) /\
  NoDup (columns df) /\
  (forall k, k ∈ columns df <-> exists r, r ∈ records /\ k ∈ record_keys r) /\
  (forall r,
     columns (pd_DataFrame (records ++ [r]))
     = (columns df
        ++ first_seen (filter (fun k => k ∉ columns df) (record_keys r)))%list) /\
  length (values df) = length records /\
  (forall i r j k,
     records !! i = Some r -> columns df !! j = Some k ->
     exists row,
       values df !! i = Some row /\
       length row = length (columns df) /\
       row !! j = Some (default VNone (record_get r k)) /\
       (k ∉ record_keys r -> row !! j = Some VNone)) /\
  columns (pd_DataFrame [[("a", VInt 1); ("b", VInt 2)];
                         [("b", VInt 3); ("c", VInt 4)]])
  = ["a"; "b"; "c"] /\
  values (pd_DataFrame [[("a", VInt 1); ("b", VInt 2)];
                        [("b", VInt 3); ("c", VInt 4)]])
  = [[VInt 1; VInt 2; VNone]; [VNone; VInt 3; VInt 4]].
Proof.
  cbn zeta. cbn [columns pd_DataFrame].
  split; [apply frame_columns_first_seen|].
  split; [rewrite frame_columns_first_seen; apply NoDup_first_seen|].
  split.
  { intros k. rewrite frame_columns_first_seen, elem_of_first_seen.
    apply elem_of_concat_keys. }
  split.
  { intros r. unfold frame_columns at 1. rewrite fold_left_app.
    cbn [fold_left]. apply extend_header_first_seen. }
  split; [cbn [values]; apply length_map|].
  split.
  { intros i r j k Hr Hk. exists (frame_row (frame_columns records) r).
    split; [apply (frame_values_lookup records i r Hr)|].
    split; [unfold frame_row; apply length_map|].
    split; [apply frame_row_lookup, Hk|].
    intros Hmiss. rewrite (frame_row_lookup _ _ _ _ Hk).
    rewrite (record_get_missing _ _ Hmiss). reflexivity. }
  split; reflexivity.
Qed.

(* ===================================================================== *)
(** ** The sheet written from a table *)
(* ===================================================================== *)

Lemma write_row_other (r c : nat) (vs : list pyval)
    (m : gmap (nat * nat) cell) (r' c' : nat) :
  (r' <> r \/ c' < c)%nat ->
  write_row r c vs m !! (r', c') = m !! (r', c').
Proof.
  revert c m. induction vs as [|v vs IH]; intros c m H; [reflexivity|].
  cbn [write_row]. rewrite IH by lia.
  apply lookup_insert_ne. intros E. injection E as -> ->. lia.
Qed.

Lemma write_row_lookup (r c : nat) (vs : list pyval)
    (m : gmap (nat * nat) cell) (j : nat) (v : pyval) :
  vs !! j = Some v ->
  write_row r c vs m !! (r, (c + j)%nat) = Some (value_cell v).
Proof.
  revert c m j. induction vs as [|v0 vs IH]; intros c m j H; [discriminate|].
  cbn [write_row]. destruct j as [|j]; cbn in H.
  - injection H as ->. rewrite write_row_other by lia.
    rewrite Nat.add_0_r. apply lookup_insert_eq.
  - replace (c + S j)%nat with (S c + j)%nat by lia. apply IH, H.
Qed.

Lemma write_rows_above (r : nat) (rows : list (list pyval))
    (m : gmap (nat * nat) cell) (r' c' : nat) :
  (r' < r)%nat -> write_rows r rows m !! (r', c') = m !! (r', c').
Proof.
  revert r m. induction rows as [|vs rows IH]; intros r m H; [reflexivity|].
  cbn [write_rows]. rewrite IH by lia. apply write_row_other. lia.
Qed.

Lemma write_rows_lookup (r : nat) (rows : list (list pyval))
    (m : gmap (nat * nat) cell) (i j : nat) (vs : list pyval) (v : pyval) :
  rows !! i = Some vs -> vs !! j = Some v ->
  write_rows r rows m !! ((r + i)%nat, (1 + j)%nat) = Some (value_cell v).
Proof.
  revert r m i. induction rows as [|vs0 rows IH]; intros r m i Hi Hj;
    [discriminate|].
  cbn [write_rows]. destruct i as [|i]; cbn in Hi.
  - injection Hi as ->. rewrite write_rows_above by lia.
    rewrite Nat.add_0_r. apply write_row_lookup, Hj.
  - replace (r + S i)%nat with (S r + i)%nat by lia.
    apply (IH _ _ _ Hi Hj).
Qed.

Lemma sheet_header_cell (df : DataFrame) (j : nat) (k : string) :
  columns df !! j = Some k ->
  ws_cell (sheet_of_frame df) 1 (1 + j) = value_cell (VStr k).
Proof.
  intros H. unfold ws_cell, sheet_of_frame. cbn [_cells].
  rewrite write_rows_above by lia.
  rewrite (write_row_lookup 1 1 _ _ j (VStr k)); [reflexivity|].
  change (map VStr (columns df)) with (VStr <$> columns df).
  rewrite list_lookup_fmap, H. reflexivity.
Qed.

Lemma sheet_data_cell (df : DataFrame) (i j : nat) (vs : list pyval)
    (v : pyval) :
  values df !! i = Some vs -> vs !! j = Some v ->
  ws_cell (sheet_of_frame df) (2 + i) (1 + j) = value_cell v.
Proof.
  intros Hi Hj. unfold ws_cell, sheet_of_frame. cbn [_cells].
  rewrite (write_rows_lookup 2 _ _ i j vs v Hi Hj). reflexivity.
Qed.

(* ===================================================================== *)
(** ** The fetcher (C2) *)
(* ===================================================================== *)

Lemma send_spec (rq : request) (e : env) (w : world) :
  send rq e w
  = (match serve e rq with Some r => Ok r | None => Raise ConnectionError end,
     {| fs := fs w; sent := (sent w ++ [rq])%list; stdout := stdout w |}).
Proof. unfold send. destruct (serve e rq); reflexivity. Qed.

Lemma raise_for_status_spec (r : response) (e : env) (w : world) :
  raise_for_status r e w
  = (if (400 <=? status_code r)%Z && (status_code r <? 600)%Z
     then Raise (HTTPError (status_code r)) else Ok tt, w).
Proof.
  unfold raise_for_status. destruct (_ && _); reflexivity.
Qed.

Lemma drop_length_app {A : Type} (l k : list A) :
  drop (length l) (l ++ k)%list = k.
Proof. rewrite drop_app_length. reflexivity. Qed.

(** What [fetch] does, case by case on the answer to the POST. *)
Lemma fetch_cases (e : env) (w : world) :
  match serve e post_request with
  | None =>
      fetch e w
      = (Raise ConnectionError,
         {| fs := fs w; sent := (sent w ++ [post_request])%list;
            stdout := stdout w |})
  | Some r1 =>
      if negb (status_code r1 =? 200)%Z then
        fetch e w
        = (match serve e get_request with
           | None => Raise ConnectionError
           | Some r2 =>
               if (400 <=? status_code r2)%Z && (status_code r2 <? 600)%Z
               then Raise (HTTPError (status_code r2)) else Ok r2
           end,
           {| fs := fs w;
              sent := (sent w ++ [post_request; get_request])%list;
              stdout := stdout w |})
      else
        fetch e w
        = (Ok r1,
           {| fs := fs w; sent := (sent w ++ [post_request])%list;
              stdout := stdout w |})
  end.
Proof.
  unfold fetch, bind, requests_post, requests_get.
  rewrite send_spec. fold post_request.
  destruct (serve e post_request) as [r1|]; [|reflexivity].
  destruct (Z.eqb_spec (status_code r1) 200) as [E|E]; cbn [negb].
  - unfold ret at 1. rewrite raise_for_status_spec, E. reflexivity.
  - rewrite send_spec. fold get_request. cbn [fs sent stdout].
    rewrite <- app_assoc. cbn [app].
    destruct (serve e get_request) as [r2|]; [|reflexivity].
    rewrite raise_for_status_spec.
    destruct (_ && _); reflexivity.
Qed.

Lemma fetch_keeps_files (e : env) (w : world) :
  fs (snd (fetch e w)) = fs w /\ stdout (snd (fetch e w)) = stdout w.
Proof.
  pose proof (fetch_cases e w) as H.
  destruct (serve e post_request) as [r1|]; [|rewrite H; split; reflexivity].
  destruct (negb _); rewrite H; split; reflexivity.
Qed.

Lemma fetch_ok (e : env) (w w' : world) (r : response) :
  fetch e w = (Ok r, w') ->
  final_response e = Some r /\
  ~ (400 <= status_code r < 600)%Z /\
  fs w' = fs w /\ stdout w' = stdout w.
Proof.
  intros H. pose proof (fetch_cases e w) as C.
  pose proof (fetch_keeps_files e w) as [Hfs Hout]. rewrite H in Hfs, Hout.
  unfold final_response.
  destruct (serve e post_request) as [r1|]; [|congruence].
  destruct (Z.eqb_spec (status_code r1) 200) as [E|E]; cbn [negb] in *.
  - rewrite H in C. injection C as -> _. repeat split; auto. lia.
  - rewrite H in C. destruct (serve e get_request) as [r2|]; [|discriminate].
    destruct (Z.leb_spec 400 (status_code r2)),
             (Z.ltb_spec (status_code r2) 600); cbn [andb] in C;
      try discriminate; injection C as -> _; repeat split; auto; lia.
Qed.

(** C2, as stated, fails, whichever statuses are called a success.  A
    server answers 201 Created to every request.  The POST is answered
    with a 2xx status and the GET is issued all the same, since line 104
    tests for 200 exactly; and the final status, 201, is still not 200,
    yet no error is raised, since [raise_for_status] only raises from 400
    up: the fetch returns the response. *)
Lemma fallback_on_created_counterexample :
  serve created_env post_request = Some (reply 201 (Some trade_payload)) /\
  (200 <= 201 < 300)%Z /\
  issued fetch created_env empty_world = [post_request; get_request] /\
  fst (fetch created_env empty_world) = Ok (reply 201 (Some trade_payload)).
Proof. split; [reflexivity | split; [lia | split; reflexivity]]. Qed.

(** C2, amended: the fetcher first issues one POST with an empty body and
    a 30-second timeout to https://www.cse.lk/api/detailedTrades; it
    issues one GET to the same URL, with the same timeout, if and only
    if the POST was answered with a status other than 200; once the last
    response is there, an HTTP error is raised if and only if its status
    lies in 400..599, and otherwise that response is returned. *)
Theorem fetch_fallback_and_error (e : env) (w : world) :
  post_request
  = {| method := POST; url := "https://www.cse.lk/api/detailedTrades";
       data := []; timeout := 30 |} /\
  get_request
  = {| method := GET; url := "https://www.cse.lk/api/detailedTrades";
       data := []; timeout := 30 |} /\
  (issued fetch e w = [post_request] \/
   issued fetch e w = [post_request; get_request]) /\
  (forall r1, serve e post_request = Some r1 ->
     (issued fetch e w = [post_request; get_request]
      <-> status_code r1 <> 200%Z)) /\
  (forall r, final_response e = Some r ->
     (fst (fetch e w) = Raise (HTTPError (status_code r))
      <-> (400 <= status_code r < 600)%Z) /\
     (fst (fetch e w) = Ok r <-> ~ (400 <= status_code r < 600)%Z)).
Proof.
  split; [reflexivity|]. split; [reflexivity|].
  pose proof (fetch_cases e w) as C. unfold issued, final_response.
  destruct (serve e post_request) as [r1|].
  - destruct (Z.eqb_spec (status_code r1) 200) as [E|E]; cbn [negb] in *;
      rewrite C; cbn [fst snd sent]; rewrite drop_length_app.
    + split; [left; reflexivity|]. split.
      * intros r1' [= <-]. split; [discriminate | contradiction].
      * intros r [= <-]. split; split; try discriminate; try lia; auto.
    + split; [right; reflexivity|]. split.
      * intros r1' [= <-]. split; auto.
      * intros r ->.
        destruct (Z.leb_spec 400 (status_code r)),
                 (Z.ltb_spec (status_code r) 600); cbn [andb];
          split; split; try discriminate; try lia; auto.
  - rewrite C; cbn [fst snd sent]; rewrite drop_length_app.
    split; [left; reflexivity|]. split; discriminate.
Qed.

(* ===================================================================== *)
(** ** One run of the script *)
(* ===================================================================== *)

Lemma os_makedirs_ok (path : string) (e : env) (w w1 : world) :
  os_makedirs path e w = (Ok tt, w1) ->
  fs w1 = <[path := Dir]> (fs w) /\
  sent w1 = sent w /\ stdout w1 = stdout w /\
  (forall c, fs w !! path <> Some (File c)).
Proof.
  unfold os_makedirs. destruct (fs w !! path) as [[|c]|] eqn:E;
    intros [= <-]; cbn [fs sent stdout set_fs].
  - rewrite insert_id by exact E. repeat split. discriminate.
  - repeat split. discriminate.
Qed.

Lemma out_path_not_out_dir (d : date) : out_path_of d <> OUT_DIR.
Proof. unfold out_path_of, os_path_join, OUT_DIR. cbn. discriminate. Qed.

Lemma frame_of_length (lib : pandas) (rows : list json) (df : DataFrame) :
  frame_of lib rows = inr df -> length (values df) = length rows.
Proof.
  unfold frame_of.
  destruct (mapM record_of_json rows) as [records|] eqn:E.
  - intros [= <-]. cbn [values pd_DataFrame]. rewrite length_map.
    symmetry. apply (length_mapM _ _ _ E).
  - destruct (frame_of_other lib rows) as [name|[labels row_of]];
      [discriminate|].
    intros [= <-]. cbn [values]. apply length_map.
Qed.

Section ScriptFacts.

Variable float_of_str : string -> option float.
Variable repr_float : float -> string.
Variable lib : pandas.

Abbreviation main := (main float_of_str repr_float lib).
Abbreviation _prettify_excel := (_prettify_excel float_of_str repr_float).
Abbreviation prettify_sheet := (prettify_sheet float_of_str repr_float).
Abbreviation final_sheet := (final_sheet float_of_str repr_float).
Abbreviation write_stage := (write_stage float_of_str repr_float lib).

(** The part of the claim C3 that the code does deliver: without the
    start-up import, [_prettify_excel] returns at line 41 and leaves the
    world as it is. *)
Lemma prettify_skipped (path : string) (pc : option (list string))
    (e : env) (w : world) :
  openpyxl_imported e = false -> _prettify_excel path pc e w = (Ok tt, w).
Proof. intros H. unfold _prettify_excel. rewrite H. reflexivity. Qed.

(** Formatting the file that was just written leaves [final_sheet] in
    it. *)
Lemma prettify_after_write (e : env) (w : world) (path : string)
    (cols : list string) (ws : worksheet) :
  _prettify_excel path (Some (percent_columns cols)) e
    (set_fs w (<[path := File (Xlsx ws)]> (fs w)))
  = (Ok tt,
     set_fs w (<[path := File (Xlsx (final_sheet e cols ws))]> (fs w))).
Proof.
  unfold _prettify_excel, final_sheet.
  destruct (openpyxl_imported e); cbn [negb]; [|reflexivity].
  unfold bind, load_workbook, wb_save, write_file.
  change (fs (set_fs w ?m)) with m.
  rewrite lookup_insert_eq.
  change (fs (set_fs w ?m)) with m.
  rewrite lookup_insert_eq.
  unfold set_fs. cbn [fs sent stdout]. rewrite insert_insert_eq.
  reflexivity.
Qed.

(** Lines 114-123, from the rows on. *)
Lemma write_stage_run (rows : list json) (e : env) (w : world) :
  (let! df := build_frame lib rows in
   let! today := datetime_now in
   let out_path := out_path_of today in
   do! to_excel lib df out_path in
   let percent_cols := percent_columns (columns df) in
   do! _prettify_excel out_path (Some percent_cols) in
   print ("Saved: " +:+ out_path +:+ " rows: "
          +:+ pretty (length (values df))))%py e w
  = write_stage rows e w.
Proof.
  unfold write_stage, bind, build_frame.
  destruct (frame_of lib rows) as [name|df] eqn:Ef; [reflexivity|].
  unfold ret, datetime_now. cbn beta iota.
  rewrite (frame_of_length _ _ _ Ef). unfold to_excel.
  destruct (excel_engine_ok e); [|reflexivity].
  destruct (written_by lib df) as [ws|name [c|]]; [| |reflexivity].
  - unfold write_file at 1.
    destruct (fs w !! out_path_of (now e)) as [[|c]|]; try reflexivity;
      rewrite prettify_after_write; reflexivity.
  - unfold write_file.
    destruct (fs w !! out_path_of (now e)) as [[|c']|]; reflexivity.
Qed.

(** The whole run, stage by stage. *)
Lemma main_stages (e : env) (w : world) :
  main e w
  = match os_makedirs OUT_DIR e w with
    | (Raise x, w1) => (Raise x, w1)
    | (Ok _, w1) =>
        match fetch e w1 with
        | (Raise x, w2) => (Raise x, w2)
        | (Ok r, w2) =>
            match body r with
            | None => (Raise JSONDecodeError, w2)
            | Some payload =>
                match _extract_rows payload PREFERRED_KEYS with
                | [] => (Raise (RuntimeError NO_ROWS), w2)
                | rows => write_stage rows e w2
                end
            end
        end
    end.
Proof.
  unfold main, bind.
  destruct (os_makedirs OUT_DIR e w) as [[[]|x] w1]; [|reflexivity].
  destruct (fetch e w1) as [[r|x] w2]; [|reflexivity].
  unfold response_json. destruct (body r) as [payload|]; [|reflexivity].
  unfold ret at 1.
  destruct (_extract_rows payload PREFERRED_KEYS) as [|row rows];
    [reflexivity|].
  apply (write_stage_run (row :: rows) e w2).
Qed.

(** Every successful run went through the same steps. *)
Lemma main_ok (e : env) (w w' : world) :
  main e w = (Ok tt, w') ->
  exists r payload df ws,
    final_response e = Some r /\
    body r = Some payload /\
    _extract_rows payload PREFERRED_KEYS <> [] /\
    frame_of lib (_extract_rows payload PREFERRED_KEYS) = inr df /\
    excel_engine_ok e = true /\
    written_by lib df = Written ws /\
    fs w' = <[out_path_of (now e) :=
                File (Xlsx (final_sheet e (columns df) ws))]>
              (<[OUT_DIR := Dir]> (fs w)) /\
    stdout w'
    = (stdout w
       ++ ["Saved: " +:+ out_path_of (now e) +:+ " rows: "
           +:+ pretty (length (_extract_rows payload PREFERRED_KEYS))])%list.
Proof.
  intros H. rewrite main_stages in H.
  destruct (os_makedirs OUT_DIR e w) as [[[]|x] w1] eqn:E1; [|discriminate].
  destruct (fetch e w1) as [[r|x] w2] eqn:E2; [|discriminate].
  destruct (body r) as [payload|] eqn:E3; [|discriminate].
  destruct (_extract_rows payload PREFERRED_KEYS) as [|row rows] eqn:E4;
    [discriminate|].
  unfold write_stage in H.
  destruct (frame_of lib (row :: rows)) as [name|df] eqn:E5; [discriminate|].
  destruct (excel_engine_ok e) eqn:Heng; [|discriminate].
  destruct (written_by lib df) as [ws|name [c|]] eqn:E6.
  2,3: destruct (fs w2 !! out_path_of (now e)) as [[|c']|]; discriminate.
  apply os_makedirs_ok in E1 as (Hfs1 & _ & Hout1 & _).
  apply fetch_ok in E2 as (Hfinal & _ & Hfs2 & Hout2).
  exists r, payload, df, ws. rewrite E4.
  split; [exact Hfinal|]. split; [exact E3|]. split; [discriminate|].
  split; [exact E5|]. split; [reflexivity|]. split; [exact E6|].
  destruct (fs w2 !! out_path_of (now e)) as [[|c']|]; try discriminate;
    injection H as <-; cbn [fs stdout];
    rewrite Hfs2, Hfs1, Hout2, Hout1; split; reflexivity.
Qed.

(** Without the engine, no path but the output directory changes. *)
Lemma main_without_engine (e : env) (w : world) :
  excel_engine_ok e = false ->
  fst (main e w) <> Ok tt /\
  forall p, p <> OUT_DIR -> fs (snd (main e w)) !! p = fs w !! p.
Proof.
  intros Heng. split.
  - intros H. destruct (main e w) as [o w'] eqn:E. cbn in H. subst o.
    apply main_ok in E as (_ & _ & _ & _ & _ & _ & _ & _ & E & _).
    congruence.
  - intros p Hp. rewrite main_stages.
    destruct (os_makedirs OUT_DIR e w) as [[[]|x] w1] eqn:E1.
    + apply os_makedirs_ok in E1 as (Hfs1 & _).
      pose proof (fetch_keeps_files e w1) as [Hfs2 _].
      assert (Hw1 : fs w1 !! p = fs w !! p)
        by (rewrite Hfs1; apply lookup_insert_ne; congruence).
      destruct (fetch e w1) as [[r|x] w2]; cbn [snd] in *;
        [|congruence].
      destruct (body r) as [payload|]; [|cbn [snd]; congruence].
      destruct (_extract_rows payload PREFERRED_KEYS) as [|row rows];
        [cbn [snd]; congruence|].
      unfold write_stage.
      destruct (frame_of lib (row :: rows)); [cbn [snd]; congruence|].
      rewrite Heng. cbn [snd]. congruence.
    + unfold os_makedirs in E1.
      destruct (fs w !! OUT_DIR) as [[|c]|]; try discriminate.
      injection E1 as _ <-. reflexivity.
Qed.

Lemma not_percent_column (cols : list string) (k : string) :
  lower k ∉ PERCENT_NAMES -> k ∉ percent_columns cols.
Proof.
  intros H Hin. apply list_elem_of_filter in Hin as [Hin _]. contradiction.
Qed.

(** Outside the percent columns the pass keeps every stored value. *)
Lemma prettify_keeps_plain_values (pc : option (list string))
    (ws : worksheet) (r c : nat) :
  py_str repr_float (value (ws_cell ws 1 c)) ∉ default [] pc ->
  value (ws_cell (prettify_sheet pc ws) r c) = value (ws_cell ws r c).
Proof.
  intros H. rewrite prettify_cell. destruct (_ && _).
  - rewrite bool_decide_eq_false_2 by exact H.
    apply format_cell_plain_value.
  - apply style_header_value.
Qed.

End ScriptFacts.

(* ===================================================================== *)
(** ** Missing openpyxl (C3) *)
(* ===================================================================== *)

(** C3 does not hold of the code: on a machine where openpyxl cannot be
    imported, the server answering as in the scenario of section 8, the
    start-up import fails and the run then stops at line 118 with
    ImportError, because [to_excel] is asked for the openpyxl engine,
    whatever pandas would have done with the table.  The output
    directory is all the run leaves behind: there is no spreadsheet,
    formatted or not. *)
Theorem run_without_openpyxl_writes_nothing (lib : pandas) :
  openpyxl_imported bare_env = false /\
  fst (main demo_float_of_str demo_repr_float lib bare_env empty_world)
  = Raise ImportError /\
  fs (snd (main demo_float_of_str demo_repr_float lib bare_env empty_world))
  = {[ OUT_DIR := Dir ]} /\
  fs (snd (main demo_float_of_str demo_repr_float lib bare_env empty_world))
    !! out_path_of (now bare_env) = None.
Proof. vm_compute. repeat split; reflexivity. Qed.

(** Where pandas can still load its engine although the start-up import
    failed, the run does end with the sheet as pandas wrote it. *)
Lemma unformatted_when_not_imported (float_of_str : string -> option float)
    (repr_float : float -> string) (lib : pandas) (e : env) (w w' : world) :
  openpyxl_imported e = false ->
  main float_of_str repr_float lib e w = (Ok tt, w') ->
  exists df ws,
    written_by lib df = Written ws /\
    fs w' !! out_path_of (now e) = Some (File (Xlsx ws)).
Proof.
  intros Himp H.
  apply main_ok in H as (_ & _ & df & ws & _ & _ & _ & _ & _ & Hw & Hfs & _).
  exists df, ws. split; [exact Hw|]. rewrite Hfs, lookup_insert_eq.
  unfold final_sheet. rewrite Himp. reflexivity.
Qed.

(* ===================================================================== *)
(** ** No rows (C5) *)
(* ===================================================================== *)

(** C5: when the payload the fetcher returned holds no rows for the
    extractor, the run raises RuntimeError with a message that says "no
    rows", at line 112, before any file is written: apart from the output
    directory, the file system is the one the run started with, and
    nothing is printed. *)
Theorem no_rows_is_fatal (float_of_str : string -> option float)
    (repr_float : float -> string) (lib : pandas) (e : env)
    (w w1 w2 : world) (r : response) (payload : json) :
  os_makedirs OUT_DIR e w = (Ok tt, w1) ->
  fetch e w1 = (Ok r, w2) ->
  body r = Some payload ->
  _extract_rows payload PREFERRED_KEYS = [] ->
  main float_of_str repr_float lib e w
  = (Raise (RuntimeError NO_ROWS), w2) /\
  String.substring 17 7 NO_ROWS = "no rows" /\
  (forall p, p <> OUT_DIR -> fs w2 !! p = fs w !! p) /\
  fs w2 !! OUT_DIR = Some Dir /\
  stdout w2 = stdout w.
Proof.
  intros E1 E2 E3 E4. split.
  - unfold main, bind. rewrite E1, E2. unfold response_json. rewrite E3.
    unfold ret at 1. rewrite E4. reflexivity.
  - split; [reflexivity|].
    apply os_makedirs_ok in E1 as (Hfs1 & _ & Hout1 & _).
    apply fetch_ok in E2 as (_ & _ & Hfs2 & Hout2).
    rewrite Hfs2, Hfs1, Hout2, Hout1. split; [|split].
    + intros p Hp. apply lookup_insert_ne. congruence.
    + apply lookup_insert_eq.
    + reflexivity.
Qed.

Lemma no_rows_is_fatal_witness :
  main demo_float_of_str demo_repr_float demo_pandas foo_env empty_world
  = (Raise (RuntimeError NO_ROWS),
     snd (fetch foo_env (snd (os_makedirs OUT_DIR foo_env empty_world)))) /\
  fs (snd (fetch foo_env (snd (os_makedirs OUT_DIR foo_env empty_world))))
    !! out_path_of (now foo_env) = None.
Proof.
  destruct (no_rows_is_fatal demo_float_of_str demo_repr_float demo_pandas
              foo_env empty_world
              (snd (os_makedirs OUT_DIR foo_env empty_world))
              (snd (fetch foo_env
                      (snd (os_makedirs OUT_DIR foo_env empty_world))))
              (reply 200 (Some (JDict [("foo", JStr "bar")])))
              (JDict [("foo", JStr "bar")]))
    as (H & _ & Hfs & _); try reflexivity.
  split; [exact H|].
  rewrite Hfs; [reflexivity|]. apply out_path_not_out_dir.
Defined.

(* ===================================================================== *)
(** ** Stored values (C8) *)
(* ===================================================================== *)

(** The pass leaves a column without a header value as it found it. *)
Lemma prettify_keeps_headless_values (float_of_str : string -> option float)
    (repr_float : float -> string) (pc : option (list string))
    (ws : worksheet) (r c : nat) :
  is_none (value (ws_cell ws 1 c)) = true ->
  value (ws_cell (prettify_sheet float_of_str repr_float pc ws) r c)
  = value (ws_cell ws r c).
Proof.
  intros H. rewrite prettify_cell, H. cbn [negb]. rewrite andb_false_r.
  apply style_header_value.
Qed.

(** C8, as stated, fails: the server answers the POST with the one-record
    list [[{}]].  The extractor returns that list, of length 1, the run
    succeeds and prints "rows: 1", and the workbook it leaves holds no
    data row: the table has no column, so that nothing is written below
    or in the header row, and the sheet read back has its first row
    only, with an empty cell. *)
Lemma keyless_records_counterexample :
  final_response keyless_env = Some (reply 200 (Some (JList [JDict []]))) /\
  _extract_rows (JList [JDict []]) PREFERRED_KEYS = [JDict []] /\
  fst (main demo_float_of_str demo_repr_float demo_pandas keyless_env
         empty_world) = Ok tt /\
  stdout (snd (main demo_float_of_str demo_repr_float demo_pandas keyless_env
                 empty_world))
  = ["Saved: data/cse_detailed_trades_2024-03-07.xlsx rows: 1"] /\
  max_row
    <$> sheet_at (snd (main demo_float_of_str demo_repr_float demo_pandas
                         keyless_env empty_world))
          "data/cse_detailed_trades_2024-03-07.xlsx"
  = Some 1%nat /\
  (fun ws => value (ws_cell ws 1 1))
    <$> sheet_at (snd (main demo_float_of_str demo_repr_float demo_pandas
                         keyless_env empty_world))
          "data/cse_detailed_trades_2024-03-07.xlsx"
  = Some VNone.
Proof. vm_compute. repeat split; reflexivity. Qed.

(** C8, amended: what a successful run leaves in the output file is the
    sheet that pandas wrote for the table of the extracted rows, after
    the formatting pass; and the pass keeps the number of rows, the
    number of columns and, in every column whose header is empty or is
    not a percent synonym, the stored value of every cell: there it sets
    display formats only.  How many rows the written sheet has, and
    which values, is left to pandas and openpyxl (one row per record and
    the record's values are not promised: records without keys give no
    data row).  The last part is the pass on its own, on any sheet and
    with any percent list. *)
Theorem formatting_keeps_plain_values (float_of_str : string -> option float)
    (repr_float : float -> string) (lib : pandas) (e : env) (w w' : world) :
  main float_of_str repr_float lib e w = (Ok tt, w') ->
  (exists r payload df written ws,
     final_response e = Some r /\
     body r = Some payload /\
     frame_of lib (_extract_rows payload PREFERRED_KEYS) = inr df /\
     written_by lib df = Written written /\
     sheet_at w' (out_path_of (now e)) = Some ws /\
     max_row ws = max_row written /\
     max_column ws = max_column written /\
     forall r c,
       is_none (value (ws_cell written 1 c)) = true \/
       lower (py_str repr_float (value (ws_cell written 1 c)))
         ∉ PERCENT_NAMES ->
       value (ws_cell ws r c) = value (ws_cell written r c)) /\
  (forall percent_cols ws,
     max_row (prettify_sheet float_of_str repr_float percent_cols ws)
     = max_row ws /\
     max_column (prettify_sheet float_of_str repr_float percent_cols ws)
     = max_column ws /\
     forall r c,
       is_none (value (ws_cell ws 1 c)) = true \/
       py_str repr_float (value (ws_cell ws 1 c)) ∉ default [] percent_cols ->
       value (ws_cell (prettify_sheet float_of_str repr_float percent_cols ws)
                r c)
       = value (ws_cell ws r c)).
Proof.
  intros H. split.
  - apply main_ok in H
      as (r & payload & df & written & Hr & Hb & _ & Hf & _ & Hw & Hfs & _).
    exists r, payload, df, written,
      (final_sheet float_of_str repr_float e (columns df) written).
    split; [exact Hr|]. split; [exact Hb|]. split; [exact Hf|].
    split; [exact Hw|].
    split; [unfold sheet_at; rewrite Hfs, lookup_insert_eq; reflexivity|].
    unfold final_sheet. destruct (openpyxl_imported e).
    + split; [apply prettify_max_row|]. split; [apply prettify_max_column|].
      intros r0 c [Hnone|Hlow].
      * apply prettify_keeps_headless_values, Hnone.
      * apply prettify_keeps_plain_values. cbn [default].
        apply not_percent_column, Hlow.
    + split; [reflexivity|]. split; reflexivity.
  - intros pc ws. split; [apply prettify_max_row|].
    split; [apply prettify_max_column|].
    intros r c [Hnone|Hout].
    + apply prettify_keeps_headless_values, Hnone.
    + apply prettify_keeps_plain_values, Hout.
Qed.

Lemma formatting_keeps_plain_values_witness :
  exists ws,
    sheet_at (snd (main demo_float_of_str demo_repr_float demo_pandas
                     fallback_env empty_world))
      (out_path_of (now fallback_env)) = Some ws /\
    max_row ws = 2%nat /\
    value (ws_cell ws 2 1) = VStr "ABC".
Proof.
  destruct (formatting_keeps_plain_values demo_float_of_str demo_repr_float
              demo_pandas fallback_env empty_world
              (snd (main demo_float_of_str demo_repr_float demo_pandas
                      fallback_env empty_world)))
    as [(r & payload & df & written & ws
         & Hr & Hb & Hf & Hw & Hfs & Hmax & _ & Hval) _].
  { vm_compute. reflexivity. }
  exists ws.
  injection Hr as <-. injection Hb as <-. injection Hf as <-.
  injection Hw as <-.
  split; [exact Hfs|]. split; [rewrite Hmax; reflexivity|].
  rewrite (Hval 2%nat 1%nat); [reflexivity|].
  right. vm_compute. intros Hin.
  repeat (apply elem_of_cons in Hin as [Hin|Hin]; [discriminate|]).
  inversion Hin.
Defined.

(* ===================================================================== *)
(** ** The output file (C9) *)
(* ===================================================================== *)

(** C9: a successful run leaves the file system it started with, plus the
    directory data (already there or not) and one workbook at
    data/cse_detailed_trades_<YYYY-MM-DD>.xlsx, the date being the one of
    the clock; a second successful run on the same date replaces that
    workbook and changes no other path. *)
Theorem one_dated_file_per_run (float_of_str : string -> option float)
    (repr_float : float -> string) (lib : pandas) (e : env) (w w' : world) :
  main float_of_str repr_float lib e w = (Ok tt, w') ->
  let path :=
    "data/cse_detailed_trades_" +:+ strftime_Ymd (now e) +:+ ".xlsx" in
  (exists ws, fs w' = <[path := File (Xlsx ws)]> (<["data" := Dir]> (fs w))) /\
  fs w' !! "data" = Some Dir /\
  (forall c, fs w !! "data" <> Some (File c)) /\
  (forall p, p <> path -> p <> "data" -> fs w' !! p = fs w !! p) /\
  (forall e2 w'',
     now e2 = now e ->
     main float_of_str repr_float lib e2 w' = (Ok tt, w'') ->
     (exists ws2, fs w'' = <[path := File (Xlsx ws2)]> (fs w')) /\
     dom (fs w'') = dom (fs w')).
Proof.
  intros H path.
  assert (Hpath : path = out_path_of (now e)) by reflexivity.
  assert (Hne : path <> "data")
    by (rewrite Hpath; apply out_path_not_out_dir).
  assert (Hdirok : forall c, fs w !! "data" <> Some (File c)).
  { unfold main, bind in H.
    destruct (os_makedirs OUT_DIR e w) as [[[]|x] w1] eqn:E1;
      [|discriminate].
    apply os_makedirs_ok in E1 as (_ & _ & _ & Hd). exact Hd. }
  apply main_ok in H as (_ & _ & df & ws & _ & _ & _ & _ & _ & _ & Hfs & _).
  fold path in Hfs. change OUT_DIR with "data" in Hfs.
  assert (Hdata : fs w' !! "data" = Some Dir).
  { rewrite Hfs, lookup_insert_ne by exact Hne. apply lookup_insert_eq. }
  split; [eexists; exact Hfs|]. split; [exact Hdata|].
  split; [exact Hdirok|]. split.
  - intros p Hp1 Hp2. rewrite Hfs.
    rewrite !lookup_insert_ne by congruence. reflexivity.
  - intros e2 w'' Hnow H2.
    apply main_ok in H2
      as (_ & _ & df2 & ws2 & _ & _ & _ & _ & _ & _ & Hfs2 & _).
    rewrite Hnow in Hfs2. fold path in Hfs2. change OUT_DIR with "data" in Hfs2.
    rewrite (insert_id (fs w') "data" Dir Hdata) in Hfs2.
    split; [eexists; exact Hfs2|].
    rewrite Hfs2, dom_insert_L.
    assert (path ∈ dom (fs w')).
    { apply elem_of_dom. rewrite Hfs, lookup_insert_eq. eauto. }
    apply subseteq_union_1_L, singleton_subseteq_l. assumption.
Qed.

Lemma one_dated_file_per_run_witness :
  out_path_of (now fallback_env) = "data/cse_detailed_trades_2024-03-07.xlsx" /\
  exists ws,
    fs (snd (main demo_float_of_str demo_repr_float demo_pandas fallback_env
               empty_world))
    = <["data/cse_detailed_trades_2024-03-07.xlsx" := File (Xlsx ws)]>
        (<["data" := Dir]> ∅).
Proof.
  split; [reflexivity|].
  destruct (one_dated_file_per_run demo_float_of_str demo_repr_float
              demo_pandas fallback_env empty_world
              (snd (main demo_float_of_str demo_repr_float demo_pandas
                      fallback_env empty_world)))
    as [[ws Hws] _].
  { vm_compute. reflexivity. }
  exists ws. exact Hws.
Defined.

(* ===================================================================== *)
(** ** More on the formatting pass *)
(* ===================================================================== *)

Section PassFacts.

Variable float_of_str : string -> option float.
Variable repr_float : float -> string.

Abbreviation prettify_sheet := (prettify_sheet float_of_str repr_float).
Abbreviation format_cell := (format_cell float_of_str).
Abbreviation py_str := (py_str repr_float).
Abbreviation py_float := (py_float float_of_str).
Abbreviation lengths_in_rows := (lengths_in_rows repr_float).
Abbreviation text_length := (text_length repr_float).

Lemma style_header_cell_at (ws : worksheet) (r c : nat) :
  ws_cell (style_header ws) r c
  = if (r =? 1)%nat && (1 <=? c)%nat && (c <=? max_column ws)%nat
    then style_header_cell (ws_cell ws r c)
    else ws_cell ws r c.
Proof.
  rewrite style_header_loop.
  destruct (decide ((r, c) ∈ ((fun c => (1%nat, c)) <$> seq 1 (max_column ws))))
    as [Hin|Hout].
  - rewrite update_cells_inside;
      [| apply NoDup_row_keys, NoDup_seq | exact Hin].
    apply elem_of_row_keys in Hin as [-> Hc]. apply elem_of_seq in Hc.
    rewrite Nat.eqb_refl, (proj2 (Nat.leb_le 1 c)),
      (proj2 (Nat.leb_le c (max_column ws))) by lia.
    reflexivity.
  - rewrite update_cells_outside by exact Hout.
    destruct (_ && _) eqn:E; [|reflexivity].
    exfalso. apply Hout.
    apply andb_prop in E as [E E3]. apply andb_prop in E as [E1 E2].
    apply Nat.eqb_eq in E1. apply Nat.leb_le in E2, E3.
    apply elem_of_row_keys. split; [exact E1|]. apply elem_of_seq. lia.
Qed.

Lemma prettify_frame_fields (pc : option (list string)) (ws : worksheet) :
  freeze_panes (prettify_sheet pc ws) = Some "A2" /\
  auto_filter_ref (prettify_sheet pc ws) = Some (max_row ws, max_column ws).
Proof.
  unfold prettify_sheet.
  destruct (format_numbers_frame float_of_str repr_float (default [] pc)
              (set_column_widths repr_float
                 (set_freeze_and_filter (style_header ws))))
    as (_ & _ & -> & -> & _).
  destruct (style_header_frame ws) as (Hmr & Hmc & _).
  assert (Hw : forall cs ws0,
             let res :=
               fold_left
                 (fun ws col_idx =>
                    set_width ws col_idx
                      (column_width repr_float (column_cells ws col_idx)))
                 cs ws0 in
             freeze_panes res = freeze_panes ws0 /\
             auto_filter_ref res = auto_filter_ref ws0).
  { induction cs as [|c0 cs IH]; intros ws0; cbn zeta; [split; reflexivity|].
    cbn [fold_left].
    destruct (IH (set_width ws0 c0
                    (column_width repr_float (column_cells ws0 c0))))
      as [-> ->].
    split; reflexivity. }
  unfold set_column_widths.
  destruct (Hw (seq 1 (max_column (set_freeze_and_filter (style_header ws))))
               (set_freeze_and_filter (style_header ws))) as [-> ->].
  cbn [freeze_panes auto_filter_ref set_freeze_and_filter].
  rewrite Hmr, Hmc. split; reflexivity.
Qed.

Lemma prettify_widths_outside (pc : option (list string)) (ws : worksheet)
    (c : nat) :
  (c = 0 \/ max_column ws < c)%nat ->
  column_dimensions (prettify_sheet pc ws) !! c = column_dimensions ws !! c.
Proof.
  intros Hc. unfold prettify_sheet.
  destruct (format_numbers_frame float_of_str repr_float (default [] pc)
              (set_column_widths repr_float
                 (set_freeze_and_filter (style_header ws))))
    as (_ & _ & _ & _ & ->).
  destruct (style_header_frame ws) as (_ & Hmc & _ & _ & Hcd).
  unfold set_column_widths.
  destruct (widths_loop repr_float
              (seq 1 (max_column (set_freeze_and_filter (style_header ws))))
              (set_freeze_and_filter (style_header ws))) as (_ & _ & _ & ->).
  rewrite decide_False.
  - cbn [column_dimensions set_freeze_and_filter]. rewrite Hcd. reflexivity.
  - rewrite elem_of_seq. cbn [max_column set_freeze_and_filter]. lia.
Qed.

Lemma clamp_width_bounds (L : nat) : (10 <= clamp_width L <= 45)%nat.
Proof. unfold clamp_width. lia. Qed.

Lemma lengths_in_rows_empty (ws : worksheet) (c first count : nat) :
  (forall r, is_none (value (ws_cell ws r c)) = true) ->
  lengths_in_rows ws c first count = [].
Proof.
  intros H. unfold lengths_in_rows.
  induction (seq first (Nat.min count (max_row ws + 1 - first))) as [|r l IH];
    [reflexivity|].
  rewrite omap_cons. unfold text_length at 1. rewrite H. exact IH.
Qed.

Lemma format_cell_false_idem (c : cell) :
  format_cell false (format_cell false c) = format_cell false c.
Proof. unfold format_cell. destruct c as [[] ? ? ?]; reflexivity. Qed.

Lemma style_header_cell_idem (c : cell) :
  style_header_cell (style_header_cell c) = style_header_cell c.
Proof. reflexivity. Qed.

Lemma prettify_header_value (pc : option (list string)) (ws : worksheet)
    (c : nat) :
  value (ws_cell (prettify_sheet pc ws) 1 c) = value (ws_cell ws 1 c).
Proof.
  rewrite prettify_cell.
  replace ((2 <=? 1)%nat) with false by reflexivity.
  rewrite andb_false_r. cbn [andb]. apply style_header_value.
Qed.

(** The cells of a sheet that went through the pass once, when it goes
    through a second time. *)
Lemma prettify_twice_cell (pc : option (list string)) (ws : worksheet)
    (r c : nat) :
  ws_cell (prettify_sheet pc (prettify_sheet pc ws)) r c
  = if (1 <=? c)%nat && (c <=? max_column ws)%nat
       && (2 <=? r)%nat && (r <=? max_row ws)%nat
       && negb (is_none (value (ws_cell ws 1 c)))
    then
      let p := bool_decide (py_str (value (ws_cell ws 1 c)) ∈ default [] pc) in
      format_cell p (format_cell p (ws_cell ws r c))
    else ws_cell (prettify_sheet pc ws) r c.
Proof.
  rewrite (prettify_cell _ _ pc (prettify_sheet pc ws)).
  rewrite prettify_max_row, prettify_max_column, prettify_header_value.
  destruct ((1 <=? c)%nat && (c <=? max_column ws)%nat
            && (2 <=? r)%nat && (r <=? max_row ws)%nat
            && negb (is_none (value (ws_cell ws 1 c)))) eqn:E.
  - cbn zeta. rewrite prettify_cell, E. reflexivity.
  - rewrite style_header_cell_at, prettify_max_column.
    destruct ((r =? 1)%nat && (1 <=? c)%nat && (c <=? max_column ws)%nat)
      eqn:E1; [|reflexivity].
    apply andb_prop in E1 as [E1 E3]. apply andb_prop in E1 as [E1 E2].
    apply Nat.eqb_eq in E1. subst r.
    rewrite prettify_cell.
    replace ((2 <=? 1)%nat) with false by reflexivity.
    rewrite andb_false_r. cbn [andb].
    rewrite style_header_cell_at, Nat.eqb_refl, E2, E3. reflexivity.
Qed.

End PassFacts.

(** X1: after the pass, every header cell of the sheet is bold, centred
    both ways and wrapped, and still holds the value and the number
    format it had. *)
Theorem header_cells_styled (float_of_str : string -> option float)
    (repr_float : float -> string) (percent_cols : option (list string))
    (ws : worksheet) (c : nat) :
  (1 <= c <= max_column ws)%nat ->
  let h := ws_cell (prettify_sheet float_of_str repr_float percent_cols ws)
             1 c in
  font_bold h = true /\
  cell_alignment h
  = Some {| horizontal := "center"; vertical := "center";
            wrap_text := true |} /\
  value h = value (ws_cell ws 1 c) /\
  number_format h = number_format (ws_cell ws 1 c).
Proof.
  intros Hc h. subst h. rewrite prettify_cell.
  replace ((2 <=? 1)%nat) with false by reflexivity.
  rewrite andb_false_r. cbn [andb].
  rewrite style_header_cell_at. cbn [Nat.eqb].
  rewrite (proj2 (Nat.leb_le 1 c)), (proj2 (Nat.leb_le c (max_column ws)))
    by lia.
  repeat split.
Qed.

Lemma header_cells_styled_witness :
  font_bold
    (ws_cell (prettify_sheet demo_float_of_str demo_repr_float None trade_sheet)
       1 2) = true /\
  value
    (ws_cell (prettify_sheet demo_float_of_str demo_repr_float None trade_sheet)
       1 2) = VStr "changePercentage".
Proof.
  destruct (header_cells_styled demo_float_of_str demo_repr_float None
              trade_sheet 2) as (Hb & _ & Hv & _).
  - vm_compute. lia.
  - split; [exact Hb | exact Hv].
Defined.

(** X2: the pass freezes the sheet at A2, sets the filter range to the
    sheet's dimensions, and changes neither the number of rows nor the
    number of columns. *)
Theorem freeze_and_filter_set (float_of_str : string -> option float)
    (repr_float : float -> string) (percent_cols : option (list string))
    (ws : worksheet) :
  let ws' := prettify_sheet float_of_str repr_float percent_cols ws in
  freeze_panes ws' = Some "A2" /\
  auto_filter_ref ws' = Some (max_row ws, max_column ws) /\
  max_row ws' = max_row ws /\
  max_column ws' = max_column ws.
Proof.
  cbn zeta.
  destruct (prettify_frame_fields float_of_str repr_float percent_cols ws)
    as [-> ->].
  rewrite prettify_max_row, prettify_max_column. repeat split.
Qed.

(** X3: in a column with a header that is not a percent column, a
    populated data cell keeps its value, font and alignment; an integer
    or a boolean (a Python bool is an int) takes the format "#,##0", a
    float takes "#,##0.00", and a text keeps the format it had. *)
Theorem plain_cells_get_number_formats (float_of_str : string -> option float)
    (repr_float : float -> string) (percent_cols : option (list string))
    (ws : worksheet) (r c : nat) :
  (1 <= c <= max_column ws)%nat ->
  (2 <= r <= max_row ws)%nat ->
  is_none (value (ws_cell ws 1 c)) = false ->
  py_str repr_float (value (ws_cell ws 1 c)) ∉ default [] percent_cols ->
  let old := ws_cell ws r c in
  let new := ws_cell (prettify_sheet float_of_str repr_float percent_cols ws)
               r c in
  value new = value old /\
  font_bold new = font_bold old /\
  cell_alignment new = cell_alignment old /\
  number_format new
  = match value old with
    | VBool _ | VInt _ => "#,##0"
    | VFloat _ => "#,##0.00"
    | VNone | VStr _ => number_format old
    end.
Proof.
  intros Hc Hr Hh Hp old new. subst old new. rewrite prettify_cell, Hh.
  rewrite (proj2 (Nat.leb_le 1 c)), (proj2 (Nat.leb_le c (max_column ws))),
    (proj2 (Nat.leb_le 2 r)), (proj2 (Nat.leb_le r (max_row ws))) by lia.
  cbn [andb negb]. rewrite bool_decide_eq_false_2 by exact Hp.
  unfold format_cell. destruct (value (ws_cell ws r c)) eqn:E;
    cbn; rewrite ?E; repeat split.
Qed.

Lemma plain_cells_get_number_formats_witness :
  value
    (ws_cell (prettify_sheet demo_float_of_str demo_repr_float
                (Some ["changePercentage"]) mixed_sheet) 2 4)
  = VBool true /\
  number_format
    (ws_cell (prettify_sheet demo_float_of_str demo_repr_float
                (Some ["changePercentage"]) mixed_sheet) 2 4)
  = "#,##0".
Proof.
  destruct (plain_cells_get_number_formats demo_float_of_str demo_repr_float
              (Some ["changePercentage"]) mixed_sheet 2 4)
    as (Hv & _ & _ & Hf).
  - vm_compute. lia.
  - vm_compute. lia.
  - reflexivity.
  - vm_compute. intros H.
    apply elem_of_cons in H as [H|H]; [discriminate | inversion H].
  - split; [exact Hv | exact Hf].
Defined.

(** X4: the pass leaves a cell exactly as it was when the cell lies
    outside the columns of the sheet, or in row 0 or below the last row
    (the header row apart), or is a data cell that is empty or stands
    under an empty header cell. *)
Theorem untouched_cells (float_of_str : string -> option float)
    (repr_float : float -> string) (percent_cols : option (list string))
    (ws : worksheet) (r c : nat) :
  (c = 0 \/ max_column ws < c \/
   r = 0 \/ (max_row ws < r /\ r <> 1) \/
   (2 <= r /\ is_none (value (ws_cell ws 1 c)) = true) \/
   (2 <= r /\ is_none (value (ws_cell ws r c)) = true))%nat ->
  ws_cell (prettify_sheet float_of_str repr_float percent_cols ws) r c
  = ws_cell ws r c.
Proof.
  intros H. rewrite prettify_cell, style_header_cell_at.
  destruct (Nat.leb_spec 1 c), (Nat.leb_spec c (max_column ws)),
    (Nat.leb_spec 2 r), (Nat.leb_spec r (max_row ws)), (Nat.eqb_spec r 1);
    cbn [andb]; try reflexivity; try (exfalso; lia).
  destruct (is_none (value (ws_cell ws 1 c))) eqn:E1; cbn [negb];
    [reflexivity|].
  destruct H as [?|[?|[?|[?|[[_ ?]|[_ H]]]]]];
    try (exfalso; lia); try congruence.
  unfold format_cell. destruct (value (ws_cell ws r c)); try discriminate.
  reflexivity.
Qed.

Lemma untouched_cells_witness :
  ws_cell (prettify_sheet demo_float_of_str demo_repr_float None trade_sheet)
    5 1
  = ws_cell trade_sheet 5 1.
Proof.
  apply (untouched_cells demo_float_of_str demo_repr_float None trade_sheet
           5 1).
  right. right. right. left. vm_compute. split; [lia | discriminate].
Defined.

(** X5: every column of the sheet gets a width, and it lies between 10
    and 45; a column with no text in any cell gets 10; the widths of
    columns outside the sheet are left as they were. *)
Theorem widths_between_10_and_45 (float_of_str : string -> option float)
    (repr_float : float -> string) (percent_cols : option (list string))
    (ws : worksheet) :
  let ws' := prettify_sheet float_of_str repr_float percent_cols ws in
  (forall c, (1 <= c <= max_column ws)%nat ->
     exists width,
       column_dimensions ws' !! c = Some width /\ (10 <= width <= 45)%nat) /\
  (forall c, (1 <= c <= max_column ws)%nat ->
     (forall r, is_none (value (ws_cell ws r c)) = true) ->
     column_dimensions ws' !! c = Some 10%nat) /\
  (forall c, (c = 0 \/ max_column ws < c)%nat ->
     column_dimensions ws' !! c = column_dimensions ws !! c).
Proof.
  cbn zeta. split; [|split].
  - intros c Hc. eexists. split; [apply prettify_widths, Hc|].
    apply clamp_width_bounds.
  - intros c Hc Hempty. rewrite prettify_widths by exact Hc.
    rewrite lengths_in_rows_empty by exact Hempty. reflexivity.
  - intros c Hc. apply prettify_widths_outside, Hc.
Qed.

(** X6: on a sheet none of whose header names is in the percent list,
    the pass is idempotent: a second pass changes no cell, no width, and
    neither the freeze point, the filter range nor the dimensions. *)
Theorem prettify_twice_without_percent (float_of_str : string -> option float)
    (repr_float : float -> string) (percent_cols : option (list string))
    (ws : worksheet) :
  (forall c,
     py_str repr_float (value (ws_cell ws 1 c)) ∉ default [] percent_cols) ->
  let once := prettify_sheet float_of_str repr_float percent_cols ws in
  let twice := prettify_sheet float_of_str repr_float percent_cols once in
  (forall r c, ws_cell twice r c = ws_cell once r c) /\
  column_dimensions twice = column_dimensions once /\
  freeze_panes twice = freeze_panes once /\
  auto_filter_ref twice = auto_filter_ref once /\
  max_row twice = max_row once /\
  max_column twice = max_column once.
Proof.
  intros Hp once twice. subst once twice. split; [|split].
  - intros r c. rewrite prettify_twice_cell.
    destruct ((1 <=? c)%nat && (c <=? max_column ws)%nat
              && (2 <=? r)%nat && (r <=? max_row ws)%nat
              && negb (is_none (value (ws_cell ws 1 c)))) eqn:E;
      [|reflexivity].
    cbn zeta. rewrite prettify_cell, E.
    rewrite bool_decide_eq_false_2 by apply Hp.
    apply format_cell_false_idem.
  - apply map_eq. intros c.
    destruct (decide (1 <= c <= max_column ws)%nat) as [Hc|Hc].
    + rewrite !prettify_widths by (rewrite ?prettify_max_column; exact Hc).
      rewrite (lengths_in_rows_ext repr_float ws
                 (prettify_sheet float_of_str repr_float percent_cols ws));
        [reflexivity | apply prettify_max_row |].
      intros r. apply prettify_keeps_plain_values, Hp.
    + apply prettify_widths_outside. rewrite prettify_max_column. lia.
  - destruct (prettify_frame_fields float_of_str repr_float percent_cols
                (prettify_sheet float_of_str repr_float percent_cols ws))
      as [-> ->].
    destruct (prettify_frame_fields float_of_str repr_float percent_cols ws)
      as [-> ->].
    rewrite !prettify_max_row, !prettify_max_column. repeat split.
Qed.

Lemma prettify_twice_without_percent_witness :
  column_dimensions
    (prettify_sheet demo_float_of_str demo_repr_float None
       (prettify_sheet demo_float_of_str demo_repr_float None mixed_sheet))
  = column_dimensions
      (prettify_sheet demo_float_of_str demo_repr_float None mixed_sheet).
Proof.
  apply (prettify_twice_without_percent demo_float_of_str demo_repr_float
           None mixed_sheet).
  intros c. apply not_elem_of_nil.
Defined.

(** X7: on a percent column the pass is not idempotent: a populated data
    cell whose value converts to the number x holds x / 100 after one
    pass and x / 100 / 100 after a second pass over the same sheet. *)
Theorem percent_rescale_compounds (float_of_str : string -> option float)
    (repr_float : float -> string) (percent_cols : option (list string))
    (ws : worksheet) (r c : nat) (x : float) :
  (1 <= c <= max_column ws)%nat ->
  (2 <= r <= max_row ws)%nat ->
  is_none (value (ws_cell ws 1 c)) = false ->
  py_str repr_float (value (ws_cell ws 1 c)) ∈ default [] percent_cols ->
  py_float float_of_str (value (ws_cell ws r c)) = Some x ->
  let once := prettify_sheet float_of_str repr_float percent_cols ws in
  let twice := prettify_sheet float_of_str repr_float percent_cols once in
  value (ws_cell once r c) = VFloat (x / 100) /\
  value (ws_cell twice r c) = VFloat (x / 100 / 100).
Proof.
  intros Hc Hr Hh Hp Hx once twice. subst once twice.
  rewrite prettify_twice_cell, prettify_cell, Hh.
  rewrite (proj2 (Nat.leb_le 1 c)), (proj2 (Nat.leb_le c (max_column ws))),
    (proj2 (Nat.leb_le 2 r)), (proj2 (Nat.leb_le r (max_row ws))) by lia.
  cbn [andb negb]. cbn zeta. rewrite bool_decide_eq_true_2 by exact Hp.
  assert (H1 : format_cell float_of_str true (ws_cell ws r c)
               = {| value := VFloat (x / 100); number_format := "0.00%";
                    font_bold := font_bold (ws_cell ws r c);
                    cell_alignment := cell_alignment (ws_cell ws r c) |}).
  { unfold format_cell.
    destruct (value (ws_cell ws r c)) eqn:E; try discriminate;
      rewrite Hx; reflexivity. }
  rewrite H1. split; reflexivity.
Qed.

Lemma percent_rescale_compounds_witness :
  value
    (ws_cell
       (prettify_sheet demo_float_of_str demo_repr_float
          (Some ["changePercentage"])
          (prettify_sheet demo_float_of_str demo_repr_float
             (Some ["changePercentage"]) trade_sheet)) 2 2)
  = VFloat (0x1.3ae147ae147aep+0 / 100 / 100).
Proof.
  apply (percent_rescale_compounds demo_float_of_str demo_repr_float
           (Some ["changePercentage"]) trade_sheet 2 2).
  - vm_compute. lia.
  - vm_compute. lia.
  - reflexivity.
  - left.
  - reflexivity.
Defined.

(* ===================================================================== *)
(** ** More on the fetcher and on a run *)
(* ===================================================================== *)

Lemma fetch_raise (e : env) (w w' : world) (x : exn) :
  fetch e w = (Raise x, w') ->
  x = ConnectionError \/
  exists s, x = HTTPError s /\ (400 <= s < 600)%Z.
Proof.
  intros H. pose proof (fetch_cases e w) as C.
  destruct (serve e post_request) as [r1|]; [|left; congruence].
  destruct (negb (status_code r1 =? 200)%Z); [|congruence].
  rewrite H in C. destruct (serve e get_request) as [r2|]; [|left; congruence].
  destruct (Z.leb_spec 400 (status_code r2)),
           (Z.ltb_spec (status_code r2) 600); cbn [andb] in C;
    try discriminate.
  right. exists (status_code r2). split; [congruence | lia].
Qed.

Lemma fetch_sent (e : env) (w : world) :
  sent (snd (fetch e w)) = (sent w ++ [post_request])%list \/
  sent (snd (fetch e w)) = (sent w ++ [post_request; get_request])%list.
Proof.
  pose proof (fetch_cases e w) as C.
  destruct (serve e post_request) as [r1|]; [|left; rewrite C; reflexivity].
  destruct (negb (status_code r1 =? 200)%Z); rewrite C;
    [right | left]; reflexivity.
Qed.

(** X8: a request that cannot connect ends the fetch with the connection
    error: when the POST fails no GET is tried, and when the GET that
    follows a POST answered with another status than 200 fails, nothing
    more is sent. *)
Theorem connection_failure_is_fatal (e : env) (w : world) :
  (serve e post_request = None ->
   fst (fetch e w) = Raise ConnectionError /\
   issued fetch e w = [post_request]) /\
  (forall r1,
     serve e post_request = Some r1 ->
     status_code r1 <> 200%Z ->
     serve e get_request = None ->
     fst (fetch e w) = Raise ConnectionError /\
     issued fetch e w = [post_request; get_request]).
Proof.
  pose proof (fetch_cases e w) as C. unfold issued. split.
  - intros H. rewrite H in C. rewrite C. cbn [fst snd sent].
    rewrite drop_length_app. split; reflexivity.
  - intros r1 H1 Hs H2. rewrite H1 in C.
    destruct (Z.eqb_spec (status_code r1) 200) as [|_]; [contradiction|].
    cbn [negb] in C. rewrite H2 in C. rewrite C. cbn [fst snd sent].
    rewrite drop_length_app. split; reflexivity.
Qed.

Section RunFacts.

Variable float_of_str : string -> option float.
Variable repr_float : float -> string.
Variable lib : pandas.

Abbreviation main := (main float_of_str repr_float lib).
Abbreviation write_stage := (write_stage float_of_str repr_float lib).

(** A run whose output directory is a regular file stops at line 101. *)
Lemma main_blocked (e : env) (w : world) (c : content) :
  fs w !! OUT_DIR = Some (File c) -> main e w = (Raise FileExistsError, w).
Proof.
  intros H. unfold main, bind, os_makedirs. rewrite H. reflexivity.
Qed.

(** What lines 114-123 can raise, and what they have changed by then. *)
Lemma write_stage_raise (rows : list json) (e : env) (w w' : world)
    (x : exn) :
  write_stage rows e w = (Raise x, w') ->
  (x = ImportError \/ x = IsADirectoryError \/
   exists name, x = LibraryError name) /\
  (forall p, p <> out_path_of (now e) -> fs w' !! p = fs w !! p) /\
  ((forall name, x <> LibraryError name) -> w' = w) /\
  (fs w' !! out_path_of (now e) = fs w !! out_path_of (now e) \/
   exists c, fs w' !! out_path_of (now e) = Some (File c)) /\
  stdout w' = stdout w /\
  sent w' = sent w.
Proof.
  unfold write_stage. intros H.
  destruct (frame_of lib rows) as [name|df].
  { injection H as <- <-. repeat split; eauto. }
  destruct (excel_engine_ok e).
  2:{ injection H as <- <-. repeat split; eauto. }
  destruct (written_by lib df) as [ws|name [c|]].
  - destruct (fs w !! out_path_of (now e)) as [[|c']|] eqn:E0;
      try discriminate.
    injection H as <- <-. repeat split; eauto.
  - destruct (fs w !! out_path_of (now e)) as [[|c']|] eqn:E0;
      injection H as <- <-; cbn [set_fs fs sent stdout].
    1:{ repeat split; eauto. }
    all: split; [eauto|]; split;
      [intros p Hp; apply lookup_insert_ne; congruence|]; split;
      [intros Hno; exfalso; apply (Hno name); reflexivity|]; split;
      [right; exists c; apply lookup_insert_eq|]; split; reflexivity.
  - injection H as <- <-. repeat split; eauto.
Qed.

(** Every run that raises has printed nothing, and has not touched the
    workbook unless the exception came from inside pandas or openpyxl. *)
Lemma main_raise (e : env) (w w' : world) (x : exn) :
  main e w = (Raise x, w') ->
  (x = FileExistsError \/ x = ConnectionError \/
   (exists s, x = HTTPError s /\ (400 <= s < 600)%Z) \/
   x = JSONDecodeError \/ x = RuntimeError NO_ROWS \/
   x = ImportError \/ x = IsADirectoryError \/
   exists name, x = LibraryError name) /\
  (forall p, p <> OUT_DIR -> p <> out_path_of (now e) ->
     fs w' !! p = fs w !! p) /\
  ((forall name, x <> LibraryError name) ->
   fs w' !! out_path_of (now e) = fs w !! out_path_of (now e)) /\
  (fs w' !! out_path_of (now e) = fs w !! out_path_of (now e) \/
   exists c, fs w' !! out_path_of (now e) = Some (File c)) /\
  (fs w' !! OUT_DIR = fs w !! OUT_DIR \/ fs w' !! OUT_DIR = Some Dir) /\
  stdout w' = stdout w /\
  (sent w' = sent w \/
   sent w' = (sent w ++ [post_request])%list \/
   sent w' = (sent w ++ [post_request; get_request])%list).
Proof.
  intros H. rewrite main_stages in H.
  destruct (os_makedirs OUT_DIR e w) as [[[]|x1] w1] eqn:E1.
  2:{ injection H as <- <-. unfold os_makedirs in E1.
      destruct (fs w !! OUT_DIR) as [[|c]|] eqn:E0; try discriminate.
      injection E1 as E1. subst. repeat split; auto. }
  apply os_makedirs_ok in E1 as (Hfs1 & Hs1 & Hout1 & _).
  pose proof (fetch_keeps_files e w1) as [Hfs2 Hout2].
  pose proof (fetch_sent e w1) as Hs2. rewrite Hs1 in Hs2.
  assert (Hframe : forall p, p <> OUT_DIR ->
                     fs (snd (fetch e w1)) !! p = fs w !! p).
  { intros p Hp. rewrite Hfs2, Hfs1. apply lookup_insert_ne. congruence. }
  assert (Hdir : fs (snd (fetch e w1)) !! OUT_DIR = Some Dir)
    by (rewrite Hfs2, Hfs1; apply lookup_insert_eq).
  assert (Hout : stdout (snd (fetch e w1)) = stdout w) by congruence.
  pose proof (out_path_not_out_dir (now e)) as Hne.
  destruct (fetch e w1) as [[r|x2] w2] eqn:E2; cbn [snd] in *.
  2:{ injection H as <- <-. apply fetch_raise in E2.
      split; [tauto|]. repeat split; auto. }
  destruct (body r) as [payload|].
  2:{ injection H as <- <-. split; [tauto|]. repeat split; auto. }
  destruct (_extract_rows payload PREFERRED_KEYS) as [|row rows].
  { injection H as <- <-. split; [tauto|]. repeat split; auto. }
  apply write_stage_raise in H as (Hx & Hfs & Hsame & Hpath & Hout' & Hs').
  split; [tauto|]. split; [|split; [|split; [|split; [|split]]]].
  - intros p Hp1 Hp2. rewrite Hfs by exact Hp2. apply Hframe, Hp1.
  - intros Hno. rewrite (Hsame Hno). apply Hframe, Hne.
  - rewrite <- (Hframe _ Hne). exact Hpath.
  - right. rewrite Hfs by congruence. exact Hdir.
  - congruence.
  - right. rewrite Hs'. exact Hs2.
Qed.

(** The requests of a successful run. *)
Lemma main_ok_sent (e : env) (w w' : world) :
  main e w = (Ok tt, w') ->
  sent w' = (sent w ++ [post_request])%list \/
  sent w' = (sent w ++ [post_request; get_request])%list.
Proof.
  intros H. rewrite main_stages in H.
  destruct (os_makedirs OUT_DIR e w) as [[[]|x] w1] eqn:E1; [|discriminate].
  apply os_makedirs_ok in E1 as (_ & Hs1 & _).
  pose proof (fetch_sent e w1) as Hs2. rewrite Hs1 in Hs2.
  destruct (fetch e w1) as [[r|x] w2] eqn:E2; [|discriminate].
  cbn [snd] in Hs2.
  destruct (body r) as [payload|]; [|discriminate].
  destruct (_extract_rows payload PREFERRED_KEYS) as [|row rows];
    [discriminate|].
  unfold write_stage in H.
  destruct (frame_of lib (row :: rows)) as [name|df]; [discriminate|].
  destruct (excel_engine_ok e); [|discriminate].
  destruct (written_by lib df) as [ws|name [c|]];
    [| destruct (fs w2 !! out_path_of (now e)) as [[|c']|]; discriminate
     | discriminate].
  destruct (fs w2 !! out_path_of (now e)) as [[|c']|]; try discriminate;
    injection H as <-; exact Hs2.
Qed.

End RunFacts.

(** X9: a run that raises has printed nothing and has changed no path
    other than the output directory and the dated workbook.  Unless the
    exception came from inside pandas or openpyxl, while they built the
    table or wrote the workbook, the path of the dated workbook holds
    what it held before: the failures of the script itself (the output
    directory is a file, the connection failed, an HTTP status in
    400..599, a body that is not JSON, no rows, a missing engine, the
    output path is a directory) all come before the file is opened.  A
    failure inside the libraries leaves that path as it was or holding a
    regular file. *)
Theorem failed_run_effects (float_of_str : string -> option float)
    (repr_float : float -> string) (lib : pandas) (e : env) (w : world)
    (x : exn) :
  fst (main float_of_str repr_float lib e w) = Raise x ->
  let w' := snd (main float_of_str repr_float lib e w) in
  stdout w' = stdout w /\
  (forall p, p <> OUT_DIR -> p <> out_path_of (now e) ->
     fs w' !! p = fs w !! p) /\
  ((forall name, x <> LibraryError name) ->
   fs w' !! out_path_of (now e) = fs w !! out_path_of (now e)) /\
  (fs w' !! out_path_of (now e) = fs w !! out_path_of (now e) \/
   exists c, fs w' !! out_path_of (now e) = Some (File c)).
Proof.
  intros H. cbn zeta.
  destruct (main float_of_str repr_float lib e w) as [o w'] eqn:E.
  cbn [fst snd] in *. subst o.
  apply main_raise in E as (_ & Hfs & Hsame & Hpath & _ & Hout & _).
  split; [exact Hout|]. split; [exact Hfs|]. split; [exact Hsame|].
  exact Hpath.
Qed.

Lemma failed_run_effects_witness :
  fs (snd (main demo_float_of_str demo_repr_float demo_pandas offline_env
             empty_world))
    !! "data/cse_detailed_trades_2024-03-07.xlsx" = None /\
  stdout (snd (main demo_float_of_str demo_repr_float demo_pandas offline_env
                 empty_world))
  = [].
Proof.
  destruct (failed_run_effects demo_float_of_str demo_repr_float demo_pandas
              offline_env empty_world ConnectionError)
    as (Hout & _ & Hfs & _).
  - reflexivity.
  - split; [|exact Hout]. apply Hfs. discriminate.
Defined.

(** X10: whatever its outcome, a run changes no path other than the
    output directory and the dated workbook, never replaces an existing
    output directory, sends at most two requests, each to the API URL
    with an empty body and a 30-second timeout, and prints at most one
    line. *)
Theorem run_touches_two_paths (float_of_str : string -> option float)
    (repr_float : float -> string) (lib : pandas) (e : env) (w : world) :
  let w' := snd (main float_of_str repr_float lib e w) in
  (forall p, p <> OUT_DIR -> p <> out_path_of (now e) ->
     fs w' !! p = fs w !! p) /\
  (fs w' !! OUT_DIR = fs w !! OUT_DIR \/ fs w' !! OUT_DIR = Some Dir) /\
  (exists l, sent w' = (sent w ++ l)%list /\ (length l <= 2)%nat /\
     forall rq, rq ∈ l ->
       url rq = API_URL /\ data rq = [] /\ timeout rq = 30%Z) /\
  (exists l, stdout w' = (stdout w ++ l)%list /\ (length l <= 1)%nat).
Proof.
  cbn zeta.
  assert (Hreq : forall l,
            l = [] \/ l = [post_request] \/ l = [post_request; get_request] ->
            (length l <= 2)%nat /\
            forall rq, rq ∈ l ->
              url rq = API_URL /\ data rq = [] /\ timeout rq = 30%Z).
  { intros l [-> | [-> | ->]]; (split; [cbn; lia|]); intros rq Hin;
      repeat (apply elem_of_cons in Hin as [->|Hin]; [repeat split|]);
      inversion Hin. }
  destruct (main float_of_str repr_float lib e w) as [[[]|x] w'] eqn:E;
    cbn [snd].
  - pose proof (main_ok_sent _ _ _ _ _ _ E) as Hs.
    apply main_ok in E
      as (r & payload & df & ws & _ & _ & _ & _ & _ & _ & Hfs & Hout).
    split; [|split; [|split]].
    + intros p Hp1 Hp2. rewrite Hfs.
      rewrite !lookup_insert_ne by congruence. reflexivity.
    + right. rewrite Hfs.
      rewrite lookup_insert_ne by apply out_path_not_out_dir.
      apply lookup_insert_eq.
    + destruct Hs as [Hs|Hs]; eexists; (split; [exact Hs|]);
        apply Hreq; auto.
    + eexists. split; [exact Hout|]. cbn. lia.
  - apply main_raise in E as (_ & Hfs & _ & _ & Hdir & Hout & Hs).
    split; [|split; [|split]].
    + exact Hfs.
    + exact Hdir.
    + destruct Hs as [Hs|[Hs|Hs]].
      * exists []. rewrite app_nil_r. split; [exact Hs|]. apply Hreq; auto.
      * eexists. split; [exact Hs|]. apply Hreq; auto.
      * eexists. split; [exact Hs|]. apply Hreq; auto.
    + exists []. rewrite app_nil_r. split; [exact Hout|]. cbn. lia.
Qed.

(** X11: when the output directory exists as a regular file, the run
    stops at line 101 with FileExistsError, before any request is sent,
    and leaves the world exactly as it was. *)
Theorem blocked_output_directory (float_of_str : string -> option float)
    (repr_float : float -> string) (lib : pandas) (e : env) (w : world)
    (c : content) :
  fs w !! "data" = Some (File c) ->
  main float_of_str repr_float lib e w = (Raise FileExistsError, w) /\
  issued (main float_of_str repr_float lib) e w = [].
Proof.
  intros H. unfold issued.
  rewrite (main_blocked float_of_str repr_float lib e w c H). cbn [snd].
  split; [reflexivity|]. apply drop_all.
Qed.

Lemma blocked_output_directory_witness :
  main demo_float_of_str demo_repr_float demo_pandas fallback_env
    blocked_world
  = (Raise FileExistsError, blocked_world).
Proof.
  apply (blocked_output_directory demo_float_of_str demo_repr_float
           demo_pandas fallback_env blocked_world Other).
  reflexivity.
Defined.

(** X12: a successful run prints exactly one line, "Saved: <path> rows:
    <n>", where the path is the dated workbook and n is the number of
    rows the extractor returned for the payload of the last response;
    and it has sent the POST alone or the POST and then the GET. *)
Theorem success_line (float_of_str : string -> option float)
    (repr_float : float -> string) (lib : pandas) (e : env) (w w' : world) :
  main float_of_str repr_float lib e w = (Ok tt, w') ->
  (exists r payload,
     final_response e = Some r /\
     body r = Some payload /\
     stdout w'
     = (stdout w
        ++ ["Saved: " +:+ out_path_of (now e) +:+ " rows: "
            +:+ pretty (length (_extract_rows payload PREFERRED_KEYS))])%list) /\
  (issued (main float_of_str repr_float lib) e w = [post_request] \/
   issued (main float_of_str repr_float lib) e w
   = [post_request; get_request]).
Proof.
  intros H. split.
  - apply main_ok in H
      as (r & payload & df & ws & Hr & Hb & _ & _ & _ & _ & _ & Hout).
    exists r, payload. split; [exact Hr|]. split; [exact Hb|]. exact Hout.
  - unfold issued. rewrite H. cbn [snd].
    destruct (main_ok_sent _ _ _ _ _ _ H) as [-> | ->];
      rewrite drop_length_app; auto.
Qed.

Lemma success_line_witness :
  stdout (snd (main demo_float_of_str demo_repr_float demo_pandas fallback_env
                 empty_world))
  = ["Saved: data/cse_detailed_trades_2024-03-07.xlsx rows: 1"] /\
  issued (main demo_float_of_str demo_repr_float demo_pandas) fallback_env
    empty_world
  = [post_request; get_request].
Proof.
  destruct (success_line demo_float_of_str demo_repr_float demo_pandas
              fallback_env empty_world
              (snd (main demo_float_of_str demo_repr_float demo_pandas
                      fallback_env empty_world)))
    as [(r & payload & Hr & Hb & Hout) _].
  { vm_compute. reflexivity. }
  injection Hr as <-. injection Hb as <-.
  split; [exact Hout | reflexivity].
Defined.

(** X13: a preferred key bound to an empty list shadows every other list
    of the payload: when the first candidate key that is bound to a
    list is bound to the empty one, the run raises the "no rows" error,
    whatever rows the other entries of the mapping hold. *)
Theorem empty_preferred_list_shadows (float_of_str : string -> option float)
    (repr_float : float -> string) (lib : pandas) (e : env)
    (w w1 w2 : world) (r : response) (d : dict) (i : nat) (k : string) :
  os_makedirs OUT_DIR e w = (Ok tt, w1) ->
  fetch e w1 = (Ok r, w2) ->
  body r = Some (JDict d) ->
  PREFERRED_KEYS !! i = Some k ->
  dict_get d k = Some (JList []) ->
  (forall j k', (j < i)%nat -> PREFERRED_KEYS !! j = Some k' ->
                key_has_rows d k' = false) ->
  main float_of_str repr_float lib e w
  = (Raise (RuntimeError NO_ROWS), w2).
Proof.
  intros E1 E2 E3 Hk Hv Hbefore.
  unfold main, bind. rewrite E1, E2. unfold response_json. rewrite E3.
  unfold ret at 1. unfold _extract_rows.
  rewrite (scan_preferred_first d PREFERRED_KEYS i k [] Hk Hv Hbefore).
  reflexivity.
Qed.

Lemma empty_preferred_list_shadows_witness :
  fst (main demo_float_of_str demo_repr_float demo_pandas shadowed_env
         empty_world)
  = Raise (RuntimeError NO_ROWS).
Proof.
  rewrite (empty_preferred_list_shadows demo_float_of_str demo_repr_float
             demo_pandas shadowed_env empty_world
             (snd (os_makedirs OUT_DIR shadowed_env empty_world))
             (snd (fetch shadowed_env
                     (snd (os_makedirs OUT_DIR shadowed_env empty_world))))
             (reply 200 (Some (JDict [("rows", JList trade_rows);
                                      ("data", JList [])])))
             [("rows", JList trade_rows); ("data", JList [])]
             2 "data"); try reflexivity.
  intros j k' Hj Hl.
  destruct j as [|[|j]]; [injection Hl as <- | injection Hl as <- | lia];
    reflexivity.
Defined.

(** X14: [_prettify_excel] sends nothing, prints nothing and changes no
    path but the one it is given.  Without openpyxl it returns at once
    and leaves the world as it is, even when the path does not exist;
    with openpyxl it saves the formatted sheet back to the path it
    loaded it from, and when the path holds no workbook it raises and
    leaves the world as it is. *)
Theorem prettify_excel_effects (float_of_str : string -> option float)
    (repr_float : float -> string) (path : string)
    (percent_cols : option (list string)) (e : env) (w : world) :
  let res := _prettify_excel float_of_str repr_float path percent_cols e w in
  sent (snd res) = sent w /\
  stdout (snd res) = stdout w /\
  (forall p, p <> path -> fs (snd res) !! p = fs w !! p) /\
  (openpyxl_imported e = false -> res = (Ok tt, w)) /\
  (forall ws,
     openpyxl_imported e = true ->
     fs w !! path = Some (File (Xlsx ws)) ->
     res = (Ok tt,
            set_fs w
              (<[path := File (Xlsx (prettify_sheet float_of_str repr_float
                                       percent_cols ws))]> (fs w)))) /\
  (openpyxl_imported e = true ->
   (forall ws, fs w !! path <> Some (File (Xlsx ws))) ->
   exists x, res = (Raise x, w)).
Proof.
  cbn zeta. unfold _prettify_excel.
  destruct (openpyxl_imported e); cbn [negb].
  2:{ repeat split; try reflexivity; try discriminate. }
  unfold bind, load_workbook, wb_save, write_file.
  destruct (fs w !! path) as [[|[ws|]]|] eqn:E; cbn [fst snd];
    rewrite ?E; cbn [fst snd set_fs fs sent stdout].
  all: split; [reflexivity|]; split; [reflexivity|]; split;
    [intros p Hp; first [ apply lookup_insert_ne; congruence | reflexivity ]|];
    split; [discriminate|]; split;
    [intros ws' _ [= <-]; try reflexivity
    |intros _ Hno; try (eexists; reflexivity)].
  exfalso. eapply Hno. reflexivity.
Qed.

(** X15: a POST answered with a status other than 200 is discarded
    whole: two servers that answer the GET alike, and the POST with any
    two responses of status other than 200, give the same run (same
    outcome, same files, same output), whatever the bodies of those POST
    responses hold. *)
Theorem rejected_post_is_discarded (float_of_str : string -> option float)
    (repr_float : float -> string) (lib : pandas) (e e' : env) (w : world)
    (r1 r1' : response) :
  serve e post_request = Some r1 ->
  serve e' post_request = Some r1' ->
  status_code r1 <> 200%Z ->
  status_code r1' <> 200%Z ->
  serve e get_request = serve e' get_request ->
  now e = now e' ->
  openpyxl_imported e = openpyxl_imported e' ->
  excel_engine_ok e = excel_engine_ok e' ->
  main float_of_str repr_float lib e w
  = main float_of_str repr_float lib e' w.
Proof.
  intros H1 H1' Hs Hs' Hget Hnow Himp Heng.
  assert (Hfetch : forall w1, fetch e w1 = fetch e' w1).
  { intros w1. pose proof (fetch_cases e w1) as C.
    pose proof (fetch_cases e' w1) as C'.
    rewrite H1 in C. rewrite H1' in C'.
    destruct (Z.eqb_spec (status_code r1) 200) as [|_]; [contradiction|].
    destruct (Z.eqb_spec (status_code r1') 200) as [|_]; [contradiction|].
    cbn [negb] in C, C'. rewrite C, C', Hget. reflexivity. }
  rewrite !main_stages.
  change (os_makedirs OUT_DIR e' w) with (os_makedirs OUT_DIR e w).
  destruct (os_makedirs OUT_DIR e w) as [[[]|x] w1]; [|reflexivity].
  rewrite Hfetch. destruct (fetch e' w1) as [[r|x] w2]; [|reflexivity].
  destruct (body r) as [payload|]; [|reflexivity].
  destruct (_extract_rows payload PREFERRED_KEYS) as [|row rows];
    [reflexivity|].
  unfold write_stage, final_sheet. rewrite Hnow, Himp, Heng. reflexivity.
Qed.

Lemma rejected_post_is_discarded_witness :
  main demo_float_of_str demo_repr_float demo_pandas fallback_env empty_world
  = main demo_float_of_str demo_repr_float demo_pandas
      {| serve := fun rq =>
           match method rq with
           | POST => Some (reply 201 (Some (JList [JDict [("x", JInt 1)]])))
           | GET => Some (reply 200 (Some trade_payload))
           end;
         now := now fallback_env;
         openpyxl_imported := true;
         excel_engine_ok := true |}
      empty_world.
Proof.
  apply (rejected_post_is_discarded demo_float_of_str demo_repr_float
           demo_pandas fallback_env _ empty_world
           (reply 500 None)
           (reply 201 (Some (JList [JDict [("x", JInt 1)]]))));
    try reflexivity; cbn; lia.
Defined.

(* ===================================================================== *)
(** ** Where the rows come from *)
(* ===================================================================== *)

Lemma dict_get_elem (d : dict) (k : string) (v : json) :
  dict_get d k = Some v -> (k, v) ∈ d.
Proof.
  induction d as [|[k' v'] d IH]; [discriminate|]. cbn [dict_get].
  destruct (String.eqb_spec k' k) as [->|_].
  - intros [= ->]. left.
  - intros H. right. apply IH, H.
Qed.

Lemma scan_preferred_elem (d : dict) (keys : list string) (v : list json) :
  scan_preferred d keys = Some v ->
  exists k, k ∈ keys /\ (k, JList v) ∈ d.
Proof.
  induction keys as [|k ks IH]; [discriminate|]. cbn [scan_preferred].
  destruct (dict_get d k) as [[]|] eqn:E;
    try (intros H; destruct (IH H) as (k' & Hk' & Hin);
         exists k'; split; [right; exact Hk' | exact Hin]).
  intros [= <-]. exists k. split; [left|]. apply dict_get_elem, E.
Qed.

Lemma scan_values_elem (d : dict) (v : list json) :
  scan_values (dict_values d) = Some v -> exists k, (k, JList v) ∈ d.
Proof.
  induction d as [|[k u] d IH]; [discriminate|].
  cbn [dict_values map snd scan_values].
  destruct u;
    try (intros H; destruct (IH H) as (k' & Hin); exists k'; right;
         exact Hin).
  intros [= <-]. exists k. left.
Qed.

Lemma scan_values_some (vs : list json) :
  (exists u, u ∈ vs /\ is_list u = true) ->
  exists v, scan_values vs = Some v.
Proof.
  induction vs as [|u0 vs IH]; intros (u & Hin & Hu).
  - inversion Hin.
  - destruct u0; cbn [scan_values]; eauto;
      apply IH; apply elem_of_cons in Hin as [->|Hin];
      try discriminate; eauto.
Qed.

(** X16: the extractor returns nothing of its own making: its result is
    the payload's own list, or the empty list, or a list that is bound
    to a key of the payload at its top level; and for a mapping that has
    a list among its values the result is one of the mapping's lists. *)
Theorem extracted_rows_come_from_payload (payload : json)
    (keys : list string) :
  (_extract_rows payload keys = [] \/
   payload = JList (_extract_rows payload keys) \/
   exists d k,
     payload = JDict d /\ (k, JList (_extract_rows payload keys)) ∈ d) /\
  (forall d,
     payload = JDict d ->
     (exists u, u ∈ dict_values d /\ is_list u = true) ->
     exists k, (k, JList (_extract_rows payload keys)) ∈ d).
Proof.
  split.
  - destruct payload; try (left; reflexivity).
    + right. left. reflexivity.
    + unfold _extract_rows.
      destruct (scan_preferred entries keys) as [v|] eqn:E1.
      * right. right. apply scan_preferred_elem in E1 as (k & _ & Hin).
        eauto.
      * destruct (scan_values (dict_values entries)) as [v|] eqn:E2.
        -- right. right. apply scan_values_elem in E2 as (k & Hin). eauto.
        -- left. reflexivity.
  - intros d -> Hsome. unfold _extract_rows.
    destruct (scan_preferred d keys) as [v|] eqn:E1.
    + apply scan_preferred_elem in E1 as (k & _ & Hin). eauto.
    + destruct (scan_values_some _ Hsome) as (v & E2). rewrite E2.
      apply scan_values_elem in E2. exact E2.
Qed.

(* ===================================================================== *)
(** ** The dated path *)
(* ===================================================================== *)

Lemma append_inj_length (a a' b b' : string) :
  String.length a = String.length a' ->
  a +:+ b = a' +:+ b' -> a = a' /\ b = b'.
Proof.
  revert a'. induction a as [|x a IH]; intros [|x' a'] Hlen H;
    try discriminate.
  - split; [reflexivity | exact H].
  - cbn in Hlen, H. injection H as -> H. injection Hlen as Hlen.
    destruct (IH a' Hlen H) as [-> ->]. split; reflexivity.
Qed.

Lemma length_append (a b : string) :
  String.length (a +:+ b) = (String.length a + String.length b)%nat.
Proof.
  induction a as [|x a IH]; [reflexivity|].
  change (S (String.length (a +:+ b))
          = S (String.length a + String.length b)).
  rewrite IH. reflexivity.
Qed.

Lemma year_text (y : nat) :
  (1000 <= Z.of_nat y <= 9999)%Z ->
  pad4 y = pretty y /\ String.length (pretty y) = 4%nat.
Proof.
  intros Hy. split.
  - unfold pad4.
    destruct (Nat.ltb_spec y 10), (Nat.ltb_spec y 100),
      (Nat.ltb_spec y 1000); try lia. reflexivity.
  - assert (H : forallb (fun y => (String.length (pretty y) =? 4)%nat)
                  (seq 1000 (Z.to_nat 9000)) = true)
      by (vm_compute; reflexivity).
    rewrite forallb_forall in H. apply Nat.eqb_eq, H, in_seq. lia.
Qed.

Lemma pad2_text (a b : nat) :
  (a <= 99)%nat -> (b <= 99)%nat ->
  String.length (pad2 a) = 2%nat /\ (pad2 a = pad2 b -> a = b).
Proof.
  intros Ha Hb.
  assert (H : forallb
                (fun a =>
                   (String.length (pad2 a) =? 2)%nat
                   && forallb
                        (fun b => implb (String.eqb (pad2 a) (pad2 b))
                                        (a =? b)%nat)
                        (seq 0 100))
                (seq 0 100) = true) by (vm_compute; reflexivity).
  rewrite forallb_forall in H.
  specialize (H a (proj2 (in_seq 100 0 a) ltac:(lia))).
  apply andb_prop in H as [H1 H2]. split; [apply Nat.eqb_eq, H1|].
  rewrite forallb_forall in H2.
  specialize (H2 b (proj2 (in_seq 100 0 b) ltac:(lia))).
  intros E. rewrite E, String.eqb_refl in H2. apply Nat.eqb_eq, H2.
Qed.

Lemma strftime_length (d : date) :
  valid_date d -> String.length (strftime_Ymd d) = 10%nat.
Proof.
  intros (Hy & Hm & Hd). unfold strftime_Ymd.
  destruct (year_text _ Hy) as [-> Hly].
  destruct (pad2_text (month d) (month d)) as [Hlm _]; try lia.
  destruct (pad2_text (day d) (day d)) as [Hld _]; try lia.
  rewrite !length_append, Hly, Hlm, Hld. reflexivity.
Qed.

(** X17: for calendar dates with a four-digit year, the date part of the
    file name has exactly 10 characters, and two different dates give
    two different output paths: runs on different days never write to
    the same file. *)
Theorem dated_paths_are_distinct (d1 d2 : date) :
  valid_date d1 -> valid_date d2 ->
  String.length (strftime_Ymd d1) = 10%nat /\
  (out_path_of d1 = out_path_of d2 -> d1 = d2).
Proof.
  intros V1 V2. split; [apply strftime_length, V1|].
  pose proof (strftime_length _ V1) as L1.
  pose proof (strftime_length _ V2) as L2.
  destruct V1 as (Hy1 & Hm1 & Hd1), V2 as (Hy2 & Hm2 & Hd2).
  unfold out_path_of, os_path_join. intros H.
  do 3 apply String.app_inj in H.
  apply append_inj_length in H as [H _]; [|congruence].
  unfold strftime_Ymd in H.
  destruct (year_text _ Hy1) as [E1 Hl1], (year_text _ Hy2) as [E2 Hl2].
  rewrite E1, E2 in H.
  apply append_inj_length in H as [Hy H]; [|congruence].
  apply String.app_inj in H.
  destruct (pad2_text (month d1) (month d2)) as [Hlm1 Hm]; try lia.
  destruct (pad2_text (month d2) (month d2)) as [Hlm2 _]; try lia.
  apply append_inj_length in H as [Hmm H]; [|congruence].
  apply String.app_inj in H.
  destruct (pad2_text (day d1) (day d2)) as [_ Hd]; try lia.
  apply pretty_nat_inj in Hy. apply Hm in Hmm. apply Hd in H.
  destruct d1, d2; cbn in *; congruence.
Qed.

Lemma dated_paths_are_distinct_witness :
  String.length (strftime_Ymd {| year := 2024; month := 3; day := 7 |})
  = 10%nat /\
  out_path_of {| year := 2024; month := 3; day := 7 |}
  <> out_path_of {| year := 2024; month := 3; day := 8 |}.
Proof.
  destruct (dated_paths_are_distinct
              {| year := 2024; month := 3; day := 7 |}
              {| year := 2024; month := 3; day := 8 |}) as [HL Hinj].
  - unfold valid_date. cbn. lia.
  - unfold valid_date. cbn. lia.
  - split; [exact HL|]. intros E. apply Hinj in E. discriminate.
Defined.
